(** * opacus.privacy_engine: a shallow embedding of [PrivacyEngine]

    The Python module wires a model, an optimizer and a data loader into
    their differentially private counterparts.  Python objects are
    mutable and shared (the optimizer handed back to the caller is the one
    the model's forward hook closes over), so objects live in a heap and
    are passed around by reference; every method is a computation over
    that heap which may raise.

    Python floats are kept abstract: the development is parametric in an
    interface [PyFloat] of the float operations the module uses, with
    exact rationals and IEEE binary64 as instances to run it on. *)

From Stdlib Require Import ZArith QArith Qround String List Lia Floats Uint63.
From stdpp Require Import base option list.

Local Open Scope Z_scope.

(** ** Python numbers *)

(** The operations on [float] that [privacy_engine.py] and the accountant
    use.  [truediv a b] is the int-by-int true division [a / b] for a
    non-zero [b]; the zero check is made by the caller, see [py_truediv]. *)
Class PyFloat (F : Type) := {
  of_int : Z -> F;
  truediv : Z -> Z -> F;
  fadd : F -> F -> F;
  fsub : F -> F -> F;
  fmul : F -> F -> F;
  fdiv : F -> F -> F;
  to_int : F -> Z;
  fle : F -> F -> bool;
  flt : F -> F -> bool
}.

(** Exact rationals, with [int()] truncating towards zero. *)
#[export] Instance Q_PyFloat : PyFloat Q := {
  of_int := inject_Z;
  truediv a b := Qdiv (inject_Z a) (inject_Z b);
  fadd := Qplus;
  fsub := Qminus;
  fmul := Qmult;
  fdiv := Qdiv;
  to_int q := Z.quot (Qnum q) (Zpos (Qden q));
  fle := Qle_bool;
  flt x y := negb (Qle_bool y x)
}.

(** IEEE binary64, the floats Python runs on.  The conversions agree with
    Python's for integers below 2^53 in absolute value, where [float(n)] is
    exact and [a / b] is the correctly rounded quotient of the two floats;
    [int()] truncates towards zero (Python raises on infinities and NaN,
    which [1 / n] and its multiples by a length are not). *)
Definition float_of_Z (z : Z) : float :=
  match z with
  | Z0 => PrimFloat.zero
  | Zpos _ => PrimFloat.of_uint63 (Uint63.of_Z z)
  | Zneg p => PrimFloat.opp (PrimFloat.of_uint63 (Uint63.of_Z (Zpos p)))
  end.

Definition Z_of_float (x : float) : Z :=
  match Prim2SF x with
  | S754_finite negative m e =>
      let magnitude :=
        if 0 <=? e then Zpos m * 2 ^ e else Zpos m / 2 ^ (- e) in
      if negative then - magnitude else magnitude
  | _ => 0
  end.

#[export] Instance binary64 : PyFloat float := {
  of_int := float_of_Z;
  truediv a b := PrimFloat.div (float_of_Z a) (float_of_Z b);
  fadd := PrimFloat.add;
  fsub := PrimFloat.sub;
  fmul := PrimFloat.mul;
  fdiv := PrimFloat.div;
  to_int := Z_of_float;
  fle := PrimFloat.leb;
  flt := PrimFloat.ltb
}.

(** The order laws used for the accountant: comparisons form a total
    preorder (no NaN), and addition is monotone, as it is for correctly
    rounded floats and for exact arithmetic. *)
Class PyFloatOrder (F : Type) `{PyFloat F} : Prop := {
  fle_total x y : fle x y = true \/ fle y x = true;
  fle_trans x y z : fle x y = true -> fle y z = true -> fle x z = true;
  flt_fle x y : flt x y = negb (fle y x);
  fadd_le_mono x y z : fle x y = true -> fle (fadd x z) (fadd y z) = true;
  fadd_nonneg x y : fle (of_int 0) y = true -> fle x (fadd x y) = true
}.

#[export] Instance Q_PyFloatOrder : PyFloatOrder Q.
Proof.
  split; simpl; intros.
  - rewrite !Qle_bool_iff. destruct (Qlt_le_dec x y) as [L|L]; [left|right]; auto.
    now apply Qlt_le_weak.
  - rewrite Qle_bool_iff in *. eapply Qle_trans; eauto.
  - reflexivity.
  - rewrite Qle_bool_iff in *. now apply Qplus_le_l.
  - rewrite Qle_bool_iff in *.
    apply Qle_trans with (x + 0)%Q.
    + rewrite Qplus_0_r. apply Qle_refl.
    + now apply Qplus_le_r.
Qed.

(** ** Exceptions and the heap monad *)

Inductive exn :=
| ZeroDivisionError
| ValueError (msg : string)
| TypeError
| InvalidParameterError
| EmptyLedgerError
| CalibrationError.

(** The error [virtual_step_hook] raises; the specification calls it
    [UnclearedGradientError]. *)
Definition UnclearedGradientError : exn :=
  ValueError "Not calling zero_grad breaks accounting"%string.

Inductive outcome (A : Type) :=
| Ok (a : A)
| Raise (e : exn).
Arguments Ok {A} a.
Arguments Raise {A} e.

(** References into the heap. *)
Abbreviation loc := nat.

(** ** Objects

    The classes of torch and of the other opacus modules are not part of
    the sources; an object of such a class is kept as the attributes the
    engine reads or writes.  Tensor values are not modelled. *)

(** A gradient tensor; [has_noise] says whether the tensor carries the
    attribute [has_noise], which is what the hook probes with [hasattr]. *)
Record Tensor := { has_noise : bool }.

(** An [nn.Parameter].  [grad] is [None] or a tensor; [grad_sample] is
    [None] when the parameter has no attribute [grad_sample]. *)
Record nnParameter := {
  requires_grad : bool;
  grad : option Tensor;
  grad_sample : option Tensor
}.

(** What the loop of [virtual_step_hook] looks at in a parameter. *)
Definition noisy (P : nnParameter) : bool :=
  match grad P with
  | Some t => has_noise t
  | None => false
  end.

Definition has_grad_sample (P : nnParameter) : bool :=
  match grad_sample P with
  | Some _ => true
  | None => false
  end.

(** A parameter at which the loop stops: trainable, and either its
    gradient is marked as noised or it has per-example gradients. *)
Definition decisive (P : nnParameter) : bool :=
  requires_grad P && (noisy P || has_grad_sample P).

(** The closure [partial(virtual_step_hook, optimizer=optimizer)]. *)
Inductive ForwardPreHook :=
| partial_virtual_step_hook (optimizer : loc).

(** Modelled from the spec: a [GradSampleModule] (the external
    GradientSampleProvider, section 6; opacus.grad_sample is not part of
    the sources): the module it wraps, the constructor's options, the
    parameters of the wrapped module, and the registered pre-forward
    hooks. *)
Record GradSampleModule := {
  _module : loc;
  batch_first : bool;
  gsm_loss_reduction : string;
  gsm_parameters : list loc;
  forward_pre_hooks : list ForwardPreHook
}.

(** The closure [accountant_hook] of [make_private]: it captures [self]
    and [sample_rate]. *)
Inductive StepHook (F : Type) :=
| accountant_hook_closure (self : loc) (sample_rate : F).
Arguments accountant_hook_closure {F} self sample_rate.

(** Modelled from the spec: a [DPOptimizer] (DPStepState, section 3;
    opacus.optimizer is not part of the sources), with the optimizer it
    wraps, the parameters of that optimizer, and the attached step hooks. *)
Record DPOptimizer (F : Type) := {
  optimizer : loc;
  params : list loc;
  noise_multiplier : F;
  max_grad_norm : F;
  expected_batch_size : Z;
  loss_reduction : string;
  accumulated_iterations : Z;
  step_hooks : list (StepHook F)
}.
Arguments optimizer {F} _.
Arguments params {F} _.
Arguments noise_multiplier {F} _.
Arguments max_grad_norm {F} _.
Arguments expected_batch_size {F} _.
Arguments loss_reduction {F} _.
Arguments accumulated_iterations {F} _.
Arguments step_hooks {F} _.

(** The attribute [optimizer] of a [DPOptimizer], under a name that an
    argument called [optimizer] does not hide. *)
Definition wrapped_optimizer {F} (o : DPOptimizer F) : loc := optimizer o.

(** Modelled from the spec: a data loader (SampledBatchSource, section 6,
    exposes the number of batches and the dataset size): [batches] is
    [len(data_loader)], [dataset_size] is [len(data_loader.dataset)]. *)
Record DataLoader := {
  batches : Z;
  dataset_size : Z
}.

(** Modelled from the spec: PrivacyStep and the ledger of an
    [RDPAccountant] (section 3; opacus.accountants is not part of the
    sources). *)
Record PrivacyStep (F : Type) := {
  step_noise_multiplier : F;
  step_sample_rate : F
}.
Arguments step_noise_multiplier {F} _.
Arguments step_sample_rate {F} _.

Record RDPAccountant (F : Type) := { steps : list (PrivacyStep F) }.
Arguments steps {F} _.

(** The class of an engine object: [_prepare_data_loader] is overridden in
    the subclass and dispatched on it. *)
Inductive EngineClass :=
| PrivacyEngine_cls
| PrivacyEngineUnsafeKeepDataLoader_cls.

Record PrivacyEngine (F : Type) := {
  cls : EngineClass;
  accountant : RDPAccountant F;
  secure_mode : bool
}.
Arguments cls {F} _.
Arguments accountant {F} _.
Arguments secure_mode {F} _.

Inductive obj (F : Type) :=
| a_Parameter (p : nnParameter)
| a_Module (parameters : list loc)
| a_GradSampleModule (m : GradSampleModule)
| an_Optimizer (parameters : list loc)
| a_DPOptimizer (o : DPOptimizer F)
| a_DataLoader (d : DataLoader)
| a_DPDataLoader (d : DataLoader)
| a_PrivacyEngine (e : PrivacyEngine F).
Arguments a_Parameter {F} p.
Arguments a_Module {F} parameters.
Arguments a_GradSampleModule {F} m.
Arguments an_Optimizer {F} parameters.
Arguments a_DPOptimizer {F} o.
Arguments a_DataLoader {F} d.
Arguments a_DPDataLoader {F} d.
Arguments a_PrivacyEngine {F} e.

(** The heap: an object's reference is its index; allocation appends. *)
Abbreviation heap F := (list (obj F)).

(** ** External collaborators

    [DPDataLoader.from_data_loader] (opacus.data_loader) and
    [get_noise_multiplier] (opacus.accountants.rdp) are called by the
    engine but defined elsewhere; they are parameters of the model, each
    in an interface of its own. *)

(** [DPDataLoader.from_data_loader]: the loader it builds from a plain
    one. *)
Class DataLoaderWrapper := {
  from_data_loader : DataLoader -> DataLoader
}.

Record NoiseArgs (F : Type) := {
  target_epsilon : F;
  target_delta : F;
  sample_rate : F;
  epochs : Z;
  alphas : option (list F);
  sigma_min : option F;
  sigma_max : option F
}.
Arguments target_epsilon {F} _.
Arguments target_delta {F} _.
Arguments sample_rate {F} _.
Arguments epochs {F} _.
Arguments alphas {F} _.
Arguments sigma_min {F} _.
Arguments sigma_max {F} _.

(** [get_noise_multiplier], called with keyword arguments: the record
    holds one field per keyword. *)
Class Calibrator (F : Type) := {
  get_noise_multiplier : NoiseArgs F -> outcome F
}.

(** Modelled from the spec: the accountant's Renyi machinery
    (opacus.accountants is not part of the sources).  [orders] is the
    fixed set RenyiOrders, [compute_rdp alpha sigma q] the per-step Renyi
    divergence bound of the subsampled Gaussian mechanism at order
    [alpha], and [log] the natural logarithm. *)
Class RenyiAccounting (F : Type) := {
  orders : list F;
  compute_rdp : F -> F -> F -> F;
  log : F -> F
}.

(** ** The heap monad *)

Section Monad.
Context {F : Type}.

(** A computation runs on a heap and returns a value or raises; either
    way the heap it leaves behind is kept (a Python exception does not roll
    back mutations). *)
Definition M (A : Type) : Type := heap F -> outcome A * heap F.

Definition ret {A} (a : A) : M A := fun h => (Ok a, h).

Definition raise {A} (e : exn) : M A := fun h => (Raise e, h).

Definition bind {A B} (m : M A) (k : A -> M B) : M B :=
  fun h =>
    match m h with
    | (Ok a, h') => k a h'
    | (Raise e, h') => (Raise e, h')
    end.

Definition lift {A} (r : outcome A) : M A := fun h => (r, h).

(** Object creation: the new object gets the next free reference. *)
Definition alloc (o : obj F) : M loc := fun h => (Ok (length h), h ++ [o]).

End Monad.

Arguments M F A : clear implicits.

Notation "x <- m ;; k" := (bind m (fun x => k))
  (at level 100, m at next level, right associativity).
Notation "m ;; k" := (bind m (fun _ => k))
  (at level 100, right associativity).

Section Model.
Context {F : Type} {float_ops : PyFloat F} {wrapper : DataLoaderWrapper}
  {calibrator : Calibrator F} {renyi : RenyiAccounting F}.

(** ** Attribute access and [isinstance] *)

(** [isinstance(l, C)] tests, returning the instance when there is one. *)
Definition as_GradSampleModule (l : loc) : M F (option GradSampleModule) :=
  fun h =>
    match h !! l with
    | Some (a_GradSampleModule m) => (Ok (Some m), h)
    | _ => (Ok None, h)
    end.

Definition as_DPOptimizer (l : loc) : M F (option (DPOptimizer F)) :=
  fun h =>
    match h !! l with
    | Some (a_DPOptimizer o) => (Ok (Some o), h)
    | _ => (Ok None, h)
    end.

Definition as_DPDataLoader (l : loc) : M F (option DataLoader) :=
  fun h =>
    match h !! l with
    | Some (a_DPDataLoader d) => (Ok (Some d), h)
    | _ => (Ok None, h)
    end.

(** Reading an object of a given class; an object of another class does
    not have the attributes asked for, which is a [TypeError] here. *)
Definition get_parameter (l : loc) : M F nnParameter :=
  fun h =>
    match h !! l with
    | Some (a_Parameter p) => (Ok p, h)
    | _ => (Raise TypeError, h)
    end.

Definition get_GradSampleModule (l : loc) : M F GradSampleModule :=
  fun h =>
    match h !! l with
    | Some (a_GradSampleModule m) => (Ok m, h)
    | _ => (Raise TypeError, h)
    end.

Definition get_DPOptimizer (l : loc) : M F (DPOptimizer F) :=
  fun h =>
    match h !! l with
    | Some (a_DPOptimizer o) => (Ok o, h)
    | _ => (Raise TypeError, h)
    end.

Definition get_data_loader (l : loc) : M F DataLoader :=
  fun h =>
    match h !! l with
    | Some (a_DataLoader d) => (Ok d, h)
    | Some (a_DPDataLoader d) => (Ok d, h)
    | _ => (Raise TypeError, h)
    end.

(** [self.__class__] and [self.accountant] of an engine. *)
Definition get_cls (self : loc) : M F EngineClass :=
  fun h =>
    match h !! self with
    | Some (a_PrivacyEngine e) => (Ok (cls e), h)
    | _ => (Raise TypeError, h)
    end.

Definition get_accountant (self : loc) : M F (RDPAccountant F) :=
  fun h =>
    match h !! self with
    | Some (a_PrivacyEngine e) => (Ok (accountant e), h)
    | _ => (Raise TypeError, h)
    end.

Definition set_accountant (self : loc) (a : RDPAccountant F) : M F unit :=
  fun h =>
    match h !! self with
    | Some (a_PrivacyEngine e) =>
        (Ok tt,
         <[self := a_PrivacyEngine
                     {| cls := cls e; accountant := a;
                        secure_mode := secure_mode e |}]> h)
    | _ => (Raise TypeError, h)
    end.

Definition set_GradSampleModule (l : loc) (m : GradSampleModule) : M F unit :=
  fun h => (Ok tt, <[l := a_GradSampleModule m]> h).

Definition set_DPOptimizer (l : loc) (o : DPOptimizer F) : M F unit :=
  fun h => (Ok tt, <[l := a_DPOptimizer o]> h).

(** [module.parameters()]: a wrapper yields the parameters of the module it
    wraps (the same objects). *)
Definition parameters (module : loc) : M F (list loc) :=
  fun h =>
    match h !! module with
    | Some (a_Module ps) => (Ok ps, h)
    | Some (a_GradSampleModule m) => (Ok (gsm_parameters m), h)
    | _ => (Raise TypeError, h)
    end.

(** The parameters an optimizer holds in its [param_groups]. *)
Definition param_groups (optimizer : loc) : M F (list loc) :=
  fun h =>
    match h !! optimizer with
    | Some (an_Optimizer ps) => (Ok ps, h)
    | Some (a_DPOptimizer o) => (Ok (params o), h)
    | _ => (Raise TypeError, h)
    end.

(** [len(data_loader)] and [len(data_loader.dataset)]. *)
Definition len (data_loader : loc) : M F Z :=
  d <- get_data_loader data_loader ;; ret (batches d).

Definition len_dataset (data_loader : loc) : M F Z :=
  d <- get_data_loader data_loader ;; ret (dataset_size d).

(** [a / b] on ints. *)
Definition py_truediv (a b : Z) : M F F :=
  if b =? 0 then raise ZeroDivisionError else ret (truediv a b).

(** In-place update of parameter objects: [for p in ps: f(p)]. *)
Definition on_parameter (f : nnParameter -> nnParameter) (o : obj F) : obj F :=
  match o with
  | a_Parameter p => a_Parameter (f p)
  | _ => o
  end.

Definition update_parameters (f : nnParameter -> nnParameter) (ps : list loc)
    (h : heap F) : heap F :=
  fold_left (fun h p => alter (on_parameter f) p h) ps h.

Definition for_each_parameter (f : nnParameter -> nnParameter)
    (ps : list loc) : M F unit :=
  fun h => (Ok tt, update_parameters f ps h).

(** ** The accountant *)

(** Modelled from the spec: [RDPAccountant.step] ([record_step], section
    4.1; opacus.accountants is not part of the sources).  It appends a
    PrivacyStep and fails with [InvalidParameterError] when a value is
    non-positive or the sample rate exceeds 1. *)
Definition RDPAccountant_step (a : RDPAccountant F)
    (noise_multiplier sample_rate : F) : outcome (RDPAccountant F) :=
  if fle noise_multiplier (of_int 0) || fle sample_rate (of_int 0)
     || flt (of_int 1) sample_rate
  then Raise InvalidParameterError
  else Ok {| steps := steps a ++
               [{| step_noise_multiplier := noise_multiplier;
                   step_sample_rate := sample_rate |}] |}.

(** Modelled from the spec: the cumulative Renyi divergence at order
    [alpha] (section 4.1): the per-step bounds summed over the ledger, as
    Python's [sum] does (from 0, left to right). *)
Definition total_rdp (alpha : F) (ledger : list (PrivacyStep F)) : F :=
  fold_left
    (fun acc s =>
       fadd acc (compute_rdp alpha (step_noise_multiplier s) (step_sample_rate s)))
    ledger (of_int 0).

(** Modelled from the spec: the RDP to DP conversion
    [eps = eps_alpha + log(1/delta)/(alpha-1)] (section 4.1). *)
Definition eps_at (delta : F) (ledger : list (PrivacyStep F)) (alpha : F) : F :=
  fadd (total_rdp alpha ledger)
       (fdiv (log (fdiv (of_int 1) delta)) (fsub alpha (of_int 1))).

(** Modelled from the spec: the minimum over the orders (section 4.1),
    as Python's [min] takes it, keeping the first smallest candidate. *)
Fixpoint min_by_eps (best : F * F) (rest : list (F * F)) : F * F :=
  match rest with
  | [] => best
  | x :: rest' => min_by_eps (if flt (fst x) (fst best) then x else best) rest'
  end.

(** Modelled from the spec: [RDPAccountant.get_privacy_spent]
    ([compute_epsilon], section 4.1).  It returns the smallest epsilon over
    the orders together with the order that attains it. *)
Definition RDPAccountant_get_privacy_spent (a : RDPAccountant F) (delta : F)
    : outcome (F * F) :=
  if fle delta (of_int 0) || fle (of_int 1) delta
  then Raise InvalidParameterError
  else
    match steps a with
    | [] => Raise EmptyLedgerError
    | _ =>
        match map (fun alpha => (eps_at delta (steps a) alpha, alpha)) orders with
        | [] => Raise (ValueError "min() arg is an empty sequence"%string)
        | x :: rest => Ok (min_by_eps x rest)
        end
    end.

(** ** The wrappers *)

(** Modelled from the spec: the constructor [GradSampleModule(module,
    batch_first=.., loss_reduction=..)] (section 4.4, "wraps the model"):
    a new wrapper, without hooks. *)
Definition GradSampleModule_init (module : loc) (batch_first : bool)
    (loss_reduction : string) : M F loc :=
  ps <- parameters module ;;
  alloc (a_GradSampleModule
           {| _module := module; batch_first := batch_first;
              gsm_loss_reduction := loss_reduction; gsm_parameters := ps;
              forward_pre_hooks := [] |}).

Definition with_forward_pre_hook (m : GradSampleModule) (hook : ForwardPreHook)
    : GradSampleModule :=
  {| _module := _module m; batch_first := batch_first m;
     gsm_loss_reduction := gsm_loss_reduction m;
     gsm_parameters := gsm_parameters m;
     forward_pre_hooks := forward_pre_hooks m ++ [hook] |}.

(** [module.register_forward_pre_hook(hook)] of torch.nn.Module. *)
Definition register_forward_pre_hook (module : loc) (hook : ForwardPreHook)
    : M F unit :=
  m <- get_GradSampleModule module ;;
  set_GradSampleModule module (with_forward_pre_hook m hook).

(** Modelled from the spec: [GradSampleModule.zero_grad] (the hook "clears
    them"; opacus.grad_sample is not part of the sources): gradients and
    per-example gradients of every parameter of the module are dropped. *)
Definition zero_grad (module : loc) : M F unit :=
  ps <- parameters module ;;
  for_each_parameter
    (fun p => {| requires_grad := requires_grad p; grad := None;
                 grad_sample := None |})
    ps.

(** Modelled from the spec: the constructor [DPOptimizer(optimizer=..,
    noise_multiplier=.., max_grad_norm=.., expected_batch_size=..,
    loss_reduction=..)] (section 4.4, "constructs a DPStepEngine-backed
    optimizer with the given sigma and clip norm"): a new wrapper around
    [optimizer] holding the arguments, nothing accumulated, no hook
    attached. *)
Definition DPOptimizer_init (optimizer : loc) (noise_multiplier max_grad_norm : F)
    (expected_batch_size : Z) (loss_reduction : string) : M F loc :=
  ps <- param_groups optimizer ;;
  alloc (a_DPOptimizer
           {| optimizer := optimizer; params := ps;
              noise_multiplier := noise_multiplier;
              max_grad_norm := max_grad_norm;
              expected_batch_size := expected_batch_size;
              loss_reduction := loss_reduction;
              accumulated_iterations := 0;
              step_hooks := [] |}).

Definition with_accumulated_iterations (o : DPOptimizer F) (n : Z) : DPOptimizer F :=
  {| optimizer := optimizer o; params := params o;
     noise_multiplier := noise_multiplier o;
     max_grad_norm := max_grad_norm o;
     expected_batch_size := expected_batch_size o;
     loss_reduction := loss_reduction o;
     accumulated_iterations := n;
     step_hooks := step_hooks o |}.

Definition with_step_hook (o : DPOptimizer F) (fn : StepHook F) : DPOptimizer F :=
  {| optimizer := optimizer o; params := params o;
     noise_multiplier := noise_multiplier o;
     max_grad_norm := max_grad_norm o;
     expected_batch_size := expected_batch_size o;
     loss_reduction := loss_reduction o;
     accumulated_iterations := accumulated_iterations o;
     step_hooks := step_hooks o ++ [fn] |}.

(** Modelled from the spec: [DPOptimizer.attach_step_hook] (section 6: a
    step hook is invoked once per real step; opacus.optimizer is not part
    of the sources). *)
Definition attach_step_hook (optim : loc) (fn : StepHook F) : M F unit :=
  o <- get_DPOptimizer optim ;;
  set_DPOptimizer optim (with_step_hook o fn).

(** Modelled from the spec: [DPOptimizer.virtual_step] (section 4.3): the
    per-example gradients are clipped and summed into the running
    aggregate, [accumulated_iterations] is incremented, and the per-example
    gradient buffers are cleared. *)
Definition virtual_step (optim : loc) : M F unit :=
  o <- get_DPOptimizer optim ;;
  for_each_parameter
    (fun p => {| requires_grad := requires_grad p; grad := grad p;
                 grad_sample := None |})
    (params o) ;;
  set_DPOptimizer optim
    (with_accumulated_iterations o (accumulated_iterations o + 1)).

(** ** [PrivacyEngine] *)

(** [PrivacyEngine.__init__] (and the subclass's, which inherits it). *)
Definition PrivacyEngine_init (c : EngineClass) (secure_mode : bool) : M F loc :=
  alloc (a_PrivacyEngine
           {| cls := c; accountant := {| steps := [] |};
              secure_mode := secure_mode |}).

Definition _prepare_model (self module : loc) (batch_first : bool)
    (loss_reduction : string) : M F loc :=
  is_wrapped <- as_GradSampleModule module ;;
  match is_wrapped with
  | Some _ => ret module
  | None => GradSampleModule_init module batch_first loss_reduction
  end.

Definition _prepare_optimizer (self optimizer : loc)
    (noise_multiplier max_grad_norm : F) (expected_batch_size : Z)
    (loss_reduction : string) : M F loc :=
  is_wrapped <- as_DPOptimizer optimizer ;;
  let optimizer :=
    match is_wrapped with
    | Some o => wrapped_optimizer o
    | None => optimizer
    end in
  DPOptimizer_init optimizer noise_multiplier max_grad_norm
    expected_batch_size loss_reduction.

(** [PrivacyEngine._prepare_data_loader]. *)
Definition PrivacyEngine_prepare_data_loader (self data_loader : loc) : M F loc :=
  is_wrapped <- as_DPDataLoader data_loader ;;
  match is_wrapped with
  | Some _ => ret data_loader
  | None =>
      d <- get_data_loader data_loader ;;
      alloc (a_DPDataLoader (from_data_loader d))
  end.

(** [PrivacyEngineUnsafeKeepDataLoader._prepare_data_loader]. *)
Definition PrivacyEngineUnsafeKeepDataLoader_prepare_data_loader
    (self data_loader : loc) : M F loc :=
  ret data_loader.

(** [self._prepare_data_loader(..)], dispatched on the class of [self]. *)
Definition _prepare_data_loader (self data_loader : loc) : M F loc :=
  c <- get_cls self ;;
  match c with
  | PrivacyEngine_cls => PrivacyEngine_prepare_data_loader self data_loader
  | PrivacyEngineUnsafeKeepDataLoader_cls =>
      PrivacyEngineUnsafeKeepDataLoader_prepare_data_loader self data_loader
  end.

(** The body of [accountant_hook(optim)], with the variables [self] and
    [sample_rate] it closes over. *)
Definition accountant_hook (self : loc) (sample_rate : F) (optim : loc) : M F unit :=
  o <- get_DPOptimizer optim ;;
  a <- get_accountant self ;;
  a' <- lift (RDPAccountant_step a (noise_multiplier o)
                (fmul sample_rate (of_int (accumulated_iterations o)))) ;;
  set_accountant self a'.

(** The [for] loop of [virtual_step_hook]; the result is the final value
    of [has_grad_sample]. *)
Fixpoint scan_parameters (ps : list loc) : M F bool :=
  match ps with
  | [] => ret false
  | p :: rest =>
      P <- get_parameter p ;;
      if negb (requires_grad P) then scan_parameters rest
      else
        match grad P with
        | Some {| has_noise := true |} => raise UnclearedGradientError
        | _ =>
            match grad_sample P with
            | Some _ => ret true
            | None => scan_parameters rest
            end
        end
  end.

Definition virtual_step_hook (module : loc) (optimizer : loc) : M F unit :=
  ps <- parameters module ;;
  has_grad_sample <- scan_parameters ps ;;
  if has_grad_sample then
    virtual_step optimizer ;;
    zero_grad module
  else ret tt.

Definition make_private (self module optimizer data_loader : loc)
    (noise_multiplier max_grad_norm : F) (batch_first : bool)
    (loss_reduction : string) : M F (loc * loc * loc) :=
  module <- _prepare_model self module batch_first loss_reduction ;;
  data_loader <- _prepare_data_loader self data_loader ;;
  n <- len data_loader ;;
  sample_rate <- py_truediv 1 n ;;
  size <- len_dataset data_loader ;;
  let expected_batch_size := to_int (fmul (of_int size) sample_rate) in
  optimizer <- _prepare_optimizer self optimizer noise_multiplier max_grad_norm
                 expected_batch_size loss_reduction ;;
  attach_step_hook optimizer (accountant_hook_closure self sample_rate) ;;
  register_forward_pre_hook module (partial_virtual_step_hook optimizer) ;;
  ret (module, optimizer, data_loader).

(** The [DPOptimizer] object [make_private] hands back: a wrapper around
    [inner] with the derived sampling parameters of the loader [d], nothing
    accumulated, and the accountant hook attached. *)
Definition wrapped_by (self inner : loc) (ps : list loc)
    (noise_multiplier max_grad_norm : F) (loss_reduction : string)
    (d : DataLoader) : DPOptimizer F :=
  {| optimizer := inner; params := ps;
     noise_multiplier := noise_multiplier;
     max_grad_norm := max_grad_norm;
     expected_batch_size :=
       to_int (fmul (of_int (dataset_size d)) (truediv 1 (batches d)));
     loss_reduction := loss_reduction;
     accumulated_iterations := 0;
     step_hooks := [accountant_hook_closure self (truediv 1 (batches d))] |}.

Definition make_private_with_epsilon (self module optimizer data_loader : loc)
    (target_epsilon target_delta : F) (epochs : Z) (max_grad_norm : F)
    (batch_first : bool) (loss_reduction : string)
    (alphas : option (list F)) (sigma_min sigma_max : option F)
    : M F (loc * loc * loc) :=
  n <- len data_loader ;;
  sample_rate <- py_truediv 1 n ;;
  noise_multiplier <-
    lift (get_noise_multiplier
            {| target_epsilon := target_epsilon; target_delta := target_delta;
               sample_rate := sample_rate; epochs := epochs; alphas := alphas;
               sigma_min := sigma_min; sigma_max := sigma_max |}) ;;
  make_private self module optimizer data_loader noise_multiplier max_grad_norm
    batch_first loss_reduction.

Definition get_epsilon (self : loc) (delta : F) (alphas : option (list F)) : M F F :=
  a <- get_accountant self ;;
  spent <- lift (RDPAccountant_get_privacy_spent a delta) ;;
  ret (fst spent).

(** ** Running the hooks *)

Definition run_step_hook (fn : StepHook F) (optim : loc) : M F unit :=
  match fn with
  | accountant_hook_closure self sample_rate => accountant_hook self sample_rate optim
  end.

Fixpoint run_step_hooks (fns : list (StepHook F)) (optim : loc) : M F unit :=
  match fns with
  | [] => ret tt
  | fn :: rest => run_step_hook fn optim ;; run_step_hooks rest optim
  end.

(** Modelled from the spec: [DPOptimizer.step] (section 4.3, the real
    step).  With nothing accumulated it is a no-op.  Otherwise the noised
    aggregate is written back as the gradient of every trainable
    parameter, the per-example gradients are consumed, each step hook is
    invoked once, and [accumulated_iterations] is reset to 0. *)
Definition step (optim : loc) : M F unit :=
  o <- get_DPOptimizer optim ;;
  if accumulated_iterations o =? 0 then ret tt
  else
    for_each_parameter
      (fun p =>
         if requires_grad p
         then {| requires_grad := true; grad := Some {| has_noise := true |};
                 grad_sample := None |}
         else p)
      (params o) ;;
    run_step_hooks (step_hooks o) optim ;;
    o' <- get_DPOptimizer optim ;;
    set_DPOptimizer optim (with_accumulated_iterations o' 0).

(** The pre-forward hooks of a wrapped module, run in registration order
    before each forward pass (torch.nn.Module.__call__). *)
Definition run_forward_pre_hook (hook : ForwardPreHook) (module : loc) : M F unit :=
  match hook with
  | partial_virtual_step_hook optimizer => virtual_step_hook module optimizer
  end.

Fixpoint run_forward_pre_hooks (hooks : list ForwardPreHook) (module : loc)
    : M F unit :=
  match hooks with
  | [] => ret tt
  | hook :: rest =>
      run_forward_pre_hook hook module ;; run_forward_pre_hooks rest module
  end.

Definition forward (module : loc) : M F unit :=
  m <- get_GradSampleModule module ;;
  run_forward_pre_hooks (forward_pre_hooks m) module.

(** Modelled from the spec: a backward pass of the GradientSampleProvider
    (section 6): every trainable parameter of the module gets a gradient
    and a per-example gradient; a gradient tensor already there is
    accumulated into in place, so it keeps its attributes. *)
Definition backward (module : loc) : M F unit :=
  ps <- parameters module ;;
  for_each_parameter
    (fun p =>
       if requires_grad p
       then {| requires_grad := true;
               grad := Some (default {| has_noise := false |} (grad p));
               grad_sample := Some {| has_noise := false |} |}
       else p)
    ps.

(** User code [p.requires_grad = b]: freezing or unfreezing a parameter. *)
Definition set_requires_grad (p : loc) (b : bool) : M F unit :=
  for_each_parameter
    (fun P => {| requires_grad := b; grad := grad P;
                 grad_sample := grad_sample P |})
    [p].


(** ** The [secure_mode] flag *)

(** [PrivacyEngine(secure_mode=b)] in place of the engine [self]: the same
    heap, with the flag of [self] set to [b]. *)
Definition set_secure_mode (b : bool) (o : obj F) : obj F :=
  match o with
  | a_PrivacyEngine e =>
      a_PrivacyEngine {| cls := cls e; accountant := accountant e; secure_mode := b |}
  | _ => o
  end.

Definition with_secure_mode (b : bool) (self : loc) (h : heap F) : heap F :=
  alter (set_secure_mode b) self h.

(** The result of a run, seen through a change [W] of the final heap. *)
Definition after {A} (W : heap F -> heap F) (r : outcome A * heap F)
    : outcome A * heap F :=
  (fst r, W (snd r)).

(** A computation is blind to the flag when running it on the heap with
    the flag changed gives the same outcome and the same final heap, up to
    that change. *)
Definition blind (b : bool) (self : loc) {A} (m : M F A) : Prop :=
  forall h, m (with_secure_mode b self h) = after (with_secure_mode b self) (m h).

End Model.

(** ** A concrete instance, for running the model

    Exact rationals for floats; a data loader wrapper that keeps the number
    of batches and the dataset; a calibrator, a per-step bound and a
    logarithm that are rational stand-ins.  The theorems below hold for
    every instance; this one is used to evaluate the model on examples. *)

#[export] Instance same_batches : DataLoaderWrapper := {
  from_data_loader d := d
}.

#[export] Instance Q_Calibrator : Calibrator Q := {
  get_noise_multiplier args :=
    if Qle_bool (target_epsilon args) 0 then Raise CalibrationError
    else Ok (Qdiv (inject_Z (epochs args)) (target_epsilon args))
}.

#[export] Instance Q_RenyiAccounting : RenyiAccounting Q := {
  orders := [Qmake 3 2; Qmake 2 1; Qmake 3 1; Qmake 4 1];
  compute_rdp alpha sigma q :=
    Qdiv (Qmult alpha (Qmult q q)) (Qmult (Qmake 2 1) (Qmult sigma sigma));
  log x := Qminus x (Qmake 1 1)
}.

Module Fixture.

Definition engine : loc := 0%nat.
Definition weight : loc := 1%nat.
Definition bias : loc := 2%nat.
Definition model : loc := 3%nat.
Definition sgd : loc := 4%nat.
Definition loader : loc := 5%nat.

Definition fresh_parameter : nnParameter :=
  {| requires_grad := true; grad := None; grad_sample := None |}.

(** An engine, a two-parameter model, its optimizer, and a loader of 4
    batches over 10 records. *)
Definition unwrapped (c : EngineClass) : heap Q :=
  [ a_PrivacyEngine {| cls := c; accountant := {| steps := [] |};
                       secure_mode := false |};
    a_Parameter fresh_parameter;
    a_Parameter fresh_parameter;
    a_Module [weight; bias];
    an_Optimizer [weight; bias];
    a_DataLoader {| batches := 4; dataset_size := 10 |} ].

(** The three wrappers [make_private] creates on [unwrapped]. *)
Definition dp_model : loc := 6%nat.
Definition dp_loader : loc := 7%nat.
Definition dp_optimizer : loc := 8%nat.

Definition one : Q := Qmake 1 1.

(** The heap after [make_private] with noise multiplier 1 and clipping
    norm 1. *)
Definition wrapped : heap Q :=
  snd (make_private engine model sgd loader one one true "mean"%string
         (unwrapped PrivacyEngine_cls)).

(** Both parameters trainable; the first carries per-example gradients
    and a gradient without noise, the second a gradient that still holds
    the noise of the last real step. *)
Definition stale_second_parameter : heap Q :=
  <[bias := a_Parameter {| requires_grad := true;
                           grad := Some {| has_noise := true |};
                           grad_sample := Some {| has_noise := false |} |}]>
  (<[weight := a_Parameter {| requires_grad := true;
                              grad := Some {| has_noise := false |};
                              grad_sample := Some {| has_noise := false |} |}]>
   wrapped).

(** The unwrapped objects with a loader that yields no batch. *)
Definition empty_loader : heap Q :=
  <[loader := a_DataLoader {| batches := 0; dataset_size := 0 |}]>
    (unwrapped PrivacyEngine_cls).

(** The wrapped model after a backward pass: the first parameter carries
    per-example gradients and a gradient without noise, the second
    nothing. *)
Definition after_backward : heap Q :=
  <[weight := a_Parameter {| requires_grad := true;
                             grad := Some {| has_noise := false |};
                             grad_sample := Some {| has_noise := false |} |}]>
    wrapped.

(** The wrapped model with the first parameter frozen while it still
    carries a noised gradient and per-example gradients; the second
    parameter is trainable and clean. *)
Definition frozen_first_parameter : heap Q :=
  <[weight := a_Parameter {| requires_grad := false;
                             grad := Some {| has_noise := true |};
                             grad_sample := Some {| has_noise := false |} |}]>
    wrapped.

(** The wrapped model with a noised gradient left on the first
    parameter. *)
Definition stale_first_parameter : heap Q :=
  <[weight := a_Parameter {| requires_grad := true;
                             grad := Some {| has_noise := true |};
                             grad_sample := None |}]>
    wrapped.

End Fixture.

(** * Properties *)

(** ** Running computations step by step *)

Section Stepping.
Context {F : Type}.

Lemma bind_ok {A B} (m : M F A) (k : A -> M F B) h a h' :
  m h = (Ok a, h') -> bind m k h = k a h'.
Proof. intros E. unfold bind. now rewrite E. Qed.

Lemma bind_raise {A B} (m : M F A) (k : A -> M F B) h e h' :
  m h = (Raise e, h') -> bind m k h = (Raise e, h').
Proof. intros E. unfold bind. now rewrite E. Qed.

Lemma bind_inv {A B} (m : M F A) (k : A -> M F B) h r h' :
  bind m k h = (r, h') ->
  (exists a h1, m h = (Ok a, h1) /\ k a h1 = (r, h')) \/
  (exists e, m h = (Raise e, h') /\ r = Raise e).
Proof.
  unfold bind. destruct (m h) as [[a|e] h1] eqn:E; intros H.
  - left. eauto.
  - right. exists e. now inversion H.
Qed.

End Stepping.

(** ** get_epsilon *)

Lemma get_accountant_heap {F : Type} (self : loc) (h : heap F) :
  snd (get_accountant self h) = h.
Proof. unfold get_accountant. now destruct (h !! self) as [[]|]. Qed.

(** C10: [get_epsilon] ignores [alphas].  For any two choices [A1], [A2]
    of the argument (lists of orders or [None]), and any two heaps in which
    [self.accountant] is the same, [get_epsilon] gives the same outcome for
    the same [delta]: only [delta] and the accountant's recorded state
    determine it.  The heap is left as it was. *)
Theorem get_epsilon_ignores_alphas {F : Type} {float_ops : PyFloat F}
    {renyi : RenyiAccounting F}
    (self : loc) (delta : F) (A1 A2 : option (list F)) (h1 h2 : heap F) :
  fst (get_accountant self h1) = fst (get_accountant self h2) ->
  fst (get_epsilon self delta A1 h1) = fst (get_epsilon self delta A2 h2)
  /\ snd (get_epsilon self delta A1 h1) = h1.
Proof.
  intros Hacc. unfold get_epsilon, bind.
  pose proof (get_accountant_heap self h1) as S1.
  pose proof (get_accountant_heap self h2) as S2.
  destruct (get_accountant self h1) as [r1 k1].
  destruct (get_accountant self h2) as [r2 k2].
  simpl in *. subst k1 k2 r2.
  destruct r1 as [a|e]; [|now split].
  unfold lift, ret.
  destruct (RDPAccountant_get_privacy_spent a delta); now split.
Qed.

(** An instance of C10: explicit orders against the default, on an engine
    whose ledger holds one step. *)
Lemma get_epsilon_ignores_alphas_witness :
  let h : heap Q :=
    [a_PrivacyEngine
       {| cls := PrivacyEngine_cls;
          accountant := {| steps := [{| step_noise_multiplier := Qmake 1 1;
                                        step_sample_rate := Qmake 1 4 |}] |};
          secure_mode := false |}] in
  fst (get_epsilon 0%nat (Qmake 1 100) (Some [Qmake 2 1; Qmake 8 1]) h) =
    fst (get_epsilon 0%nat (Qmake 1 100) None h)
  /\ snd (get_epsilon 0%nat (Qmake 1 100) (Some [Qmake 2 1; Qmake 8 1]) h) = h.
Proof.
  intros h.
  exact (get_epsilon_ignores_alphas 0%nat (Qmake 1 100)
           (Some [Qmake 2 1; Qmake 8 1]) None h h eq_refl).
Defined.

(** [get_epsilon] is the first component of what the accountant of [self]
    reports, and it leaves the heap alone. *)
Lemma get_epsilon_delegates {F : Type} {float_ops : PyFloat F}
    {renyi : RenyiAccounting F}
    (self : loc) (delta : F) (A : option (list F)) (h : heap F) e :
  h !! self = Some (a_PrivacyEngine e) ->
  get_epsilon self delta A h =
    (match RDPAccountant_get_privacy_spent (accountant e) delta with
     | Ok spent => Ok (fst spent)
     | Raise x => Raise x
     end, h).
Proof.
  intros E. unfold get_epsilon, bind, get_accountant, lift, ret. rewrite E.
  now destruct (RDPAccountant_get_privacy_spent (accountant e) delta).
Qed.

(** ** make_private_with_epsilon *)




(** X1: when the loader passed in is empty, [make_private_with_epsilon]
    raises [ZeroDivisionError] before the calibrator is called; when the
    calibrator raises, its error is the outcome; in both cases nothing has
    been wrapped and the heap is as it was.  Otherwise the call is
    [make_private] with the calibrated noise multiplier. *)
Lemma make_private_with_epsilon_raises {F : Type} {float_ops : PyFloat F}
    {wrapper : DataLoaderWrapper} {calibrator : Calibrator F}
    (self module optimizer data_loader : loc) (target_epsilon target_delta : F)
    (epochs : Z) (max_grad_norm : F) (batch_first : bool)
    (loss_reduction : string) (alphas : option (list F))
    (sigma_min sigma_max : option F) (h : heap F) (n : Z) :
  len data_loader h = (Ok n, h) ->
  make_private_with_epsilon self module optimizer data_loader target_epsilon
    target_delta epochs max_grad_norm batch_first loss_reduction alphas
    sigma_min sigma_max h
  = if n =? 0 then (Raise ZeroDivisionError, h)
    else
      match get_noise_multiplier
              {| target_epsilon := target_epsilon; target_delta := target_delta;
                 sample_rate := truediv 1 n; epochs := epochs; alphas := alphas;
                 sigma_min := sigma_min; sigma_max := sigma_max |} with
      | Ok sigma =>
          make_private self module optimizer data_loader sigma max_grad_norm
            batch_first loss_reduction h
      | Raise e => (Raise e, h)
      end.
Proof.
  intros Hlen. unfold make_private_with_epsilon.
  rewrite (bind_ok _ _ _ _ _ Hlen). unfold py_truediv.
  destruct (n =? 0); [reflexivity|].
  unfold bind at 1, ret at 1, lift at 1, bind at 1.
  now destruct get_noise_multiplier.
Qed.

(** ** Wrapping *)

Section Wrapping.
Context {F : Type} {float_ops : PyFloat F} {wrapper : DataLoaderWrapper}
  {calibrator : Calibrator F} {renyi : RenyiAccounting F}.

Lemma _prepare_model_inv (self module : loc) bf lr (h : heap F) r h' :
  _prepare_model self module bf lr h = (r, h') ->
  match r with
  | Ok m' =>
      (exists g, h !! module = Some (a_GradSampleModule g) /\ m' = module /\ h' = h)
      \/ (exists ps, h !! module = Some (a_Module ps) /\ m' = length h /\
            h' = h ++ [a_GradSampleModule
                         {| _module := module; batch_first := bf;
                            gsm_loss_reduction := lr; gsm_parameters := ps;
                            forward_pre_hooks := [] |}])
  | Raise e => e = TypeError /\ h' = h
  end.
Proof.
  unfold _prepare_model, bind, as_GradSampleModule, GradSampleModule_init,
    bind, parameters, alloc, ret.
  cbn beta. destruct (h !! module) as [[]|] eqn:E; cbn; rewrite ?E; intros ?; simplify_eq/=; eauto.
Qed.

Lemma _prepare_data_loader_inv (self data_loader : loc) (h : heap F) r h' :
  _prepare_data_loader self data_loader h = (r, h') ->
  match r with
  | Ok d' =>
      (exists e, h !! self = Some (a_PrivacyEngine e)) /\
      ((d' = data_loader /\ h' = h)
       \/ (exists d, h !! data_loader = Some (a_DataLoader d) /\ d' = length h /\
             h' = h ++ [a_DPDataLoader (from_data_loader d)]))
  | Raise e => e = TypeError /\ h' = h
  end.
Proof.
  unfold _prepare_data_loader, bind, get_cls. cbn beta.
  destruct (h !! self) as [[]|] eqn:E; cbn; try (intros ?; simplify_eq/=; eauto; fail).
  destruct (cls e).
  - unfold PrivacyEngine_prepare_data_loader, bind, as_DPDataLoader,
      get_data_loader, alloc, ret. cbn beta.
    destruct (h !! data_loader) as [[]|] eqn:E'; cbn; rewrite ?E'; intros ?; simplify_eq/=; eauto 8.
  - unfold PrivacyEngineUnsafeKeepDataLoader_prepare_data_loader, ret.
    intros ?; simplify_eq/=; eauto 8.
Qed.

Lemma _prepare_optimizer_inv (self optim : loc) sigma C ebs lr (h : heap F) r h' :
  _prepare_optimizer self optim sigma C ebs lr h = (r, h') ->
  match r with
  | Ok o' =>
      o' = length h /\
      exists inner ps,
        (inner = optim \/
         exists o, h !! optim = Some (a_DPOptimizer o) /\
                   inner = optimizer o) /\
        h' = h ++ [a_DPOptimizer
                     {| optimizer := inner; params := ps;
                        noise_multiplier := sigma; max_grad_norm := C;
                        expected_batch_size := ebs; loss_reduction := lr;
                        accumulated_iterations := 0; step_hooks := [] |}]
  | Raise e => e = TypeError /\ h' = h
  end.
Proof.
  unfold _prepare_optimizer, bind, as_DPOptimizer, DPOptimizer_init, bind,
    param_groups, alloc, wrapped_optimizer. cbn beta.
  destruct (h !! optim) as [[]|] eqn:E; cbn.
  all: try rewrite E.
  all: try (intros ?; simplify_eq/=; eauto 10; fail).
  destruct (h !! optimizer o) as [[]|] eqn:E'; cbn; intros ?; simplify_eq/=; eauto 10.
Qed.

Lemma get_data_loader_inv (l : loc) (h : heap F) r h' :
  get_data_loader l h = (r, h') ->
  h' = h /\
  match r with
  | Ok d => h !! l = Some (a_DataLoader d) \/ h !! l = Some (a_DPDataLoader d)
  | Raise e => e = TypeError
  end.
Proof.
  unfold get_data_loader.
  destruct (h !! l) as [[]|]; intros ?; simplify_eq/=; eauto.
Qed.

Lemma get_DPOptimizer_ok (l : loc) (h : heap F) o :
  h !! l = Some (a_DPOptimizer o) -> get_DPOptimizer l h = (Ok o, h).
Proof. intros E. unfold get_DPOptimizer. now rewrite E. Qed.

Lemma get_GradSampleModule_ok (l : loc) (h : heap F) g :
  h !! l = Some (a_GradSampleModule g) -> get_GradSampleModule l h = (Ok g, h).
Proof. intros E. unfold get_GradSampleModule. now rewrite E. Qed.

Lemma attach_step_hook_ok (l : loc) (h : heap F) o fn :
  h !! l = Some (a_DPOptimizer o) ->
  attach_step_hook l fn h = (Ok tt, <[l := a_DPOptimizer (with_step_hook o fn)]> h).
Proof.
  intros E. unfold attach_step_hook.
  now rewrite (bind_ok _ _ _ _ _ (get_DPOptimizer_ok _ _ _ E)).
Qed.

Lemma register_forward_pre_hook_ok (l : loc) (h : heap F) g hook :
  h !! l = Some (a_GradSampleModule g) ->
  register_forward_pre_hook l hook h =
    (Ok tt, <[l := a_GradSampleModule (with_forward_pre_hook g hook)]> h).
Proof.
  intros E. unfold register_forward_pre_hook.
  now rewrite (bind_ok _ _ _ _ _ (get_GradSampleModule_ok _ _ _ E)).
Qed.

Lemma make_private_inv (self module optim data_loader : loc) sigma C bf lr
    (h : heap F) r h' :
  make_private self module optim data_loader sigma C bf lr h = (r, h') ->
  match r with
  | Ok (m', o', d') =>
      exists h2 g d inner ps,
        h `prefix_of` h2 /\
        (exists e, h !! self = Some (a_PrivacyEngine e)) /\
        h2 !! m' = Some (a_GradSampleModule g) /\
        (h2 !! d' = Some (a_DataLoader d) \/ h2 !! d' = Some (a_DPDataLoader d)) /\
        batches d <> 0 /\
        o' = length h2 /\
        h' = <[m' := a_GradSampleModule
                        (with_forward_pre_hook g (partial_virtual_step_hook o'))]>
               (h2 ++ [a_DPOptimizer (wrapped_by self inner ps sigma C lr d)])
  | Raise e => e = TypeError \/ e = ZeroDivisionError
  end.
Proof.
  unfold make_private. intros H.
  apply bind_inv in H as [(m' & h1 & Hm & H) | (e & Hm & ->)];
    apply _prepare_model_inv in Hm; [|left; tauto].
  apply bind_inv in H as [(d' & h2 & Hd & H) | (e & Hd & ->)];
    apply _prepare_data_loader_inv in Hd; [|left; tauto].
  destruct Hd as [Hself Hd].
  unfold len at 1 in H.
  apply bind_inv in H as [(n & h2' & Hn & H) | (e & Hn & ->)].
  2:{ apply bind_inv in Hn as [(? & ? & ? & Hr) | (e' & Hn & ?)]; [discriminate Hr|].
      apply get_data_loader_inv in Hn as [_ ->]. left. congruence. }
  apply bind_inv in Hn as [(d & h2'' & Hn & Hr) | (e' & Hn & ?)]; [|discriminate].
  assert (Hget := Hn).
  apply get_data_loader_inv in Hn as [-> Hdl].
  injection Hr as <- <-.
  unfold py_truediv in H.
  destruct (Z.eqb_spec (batches d) 0) as [Hz|Hnz].
  { unfold bind, raise in H. injection H as <- <-. now right. }
  unfold bind at 1, ret at 1 in H.
  unfold len_dataset, bind at 1 in H.
  unfold bind at 1 in H. rewrite Hget in H. unfold ret at 1 in H.
  apply bind_inv in H as [(o' & h3 & Ho & H) | (e & Ho & ->)];
    apply _prepare_optimizer_inv in Ho; [|left; tauto].
  destruct Ho as (-> & inner & ps & _ & ->).
  assert (Hp2 : h1 `prefix_of` h2).
  { destruct Hd as [[_ ->] | (? & _ & _ & ->)]; [done|by apply prefix_app_r]. }
  assert (Hp1 : h `prefix_of` h1).
  { destruct Hm as [(g & _ & _ & ->) | (ps0 & _ & _ & ->)];
      [done|by apply prefix_app_r]. }
  assert (Hg : exists g, h2 !! m' = Some (a_GradSampleModule g)).
  { destruct Hm as [(g & Hg & -> & ->) | (ps0 & Hg & -> & ->)].
    - exists g. eapply prefix_lookup_Some; eauto.
    - eexists. eapply prefix_lookup_Some; [|exact Hp2].
      by apply list_lookup_middle. }
  destruct Hg as (g & Hg).
  erewrite (bind_ok (attach_step_hook _ _)) in H
    by (apply attach_step_hook_ok; by apply list_lookup_middle).
  rewrite insert_app_r_alt in H by done. rewrite Nat.sub_diag in H.
  cbn [insert list_insert with_step_hook step_hooks app] in H.
  erewrite (bind_ok (register_forward_pre_hook _ _)) in H.
  2:{ apply register_forward_pre_hook_ok. rewrite lookup_app_l; [exact Hg|].
      eapply lookup_lt_Some; eauto. }
  unfold ret in H. injection H as <- <-.
  exists h2, g, d, inner, ps.
  split; [by etrans|]. split; [|done].
  destruct Hself as [e He]. exists e.
  destruct Hm as [(g0 & _ & _ & ->) | (ps0 & _ & _ & ->)]; [done|].
  apply lookup_app_Some in He as [He | [Hge He]]; [done|].
  destruct (self - length h)%nat; [discriminate He|].
  simpl in He. by rewrite lookup_nil in He.
Qed.

(** What [make_private] leaves in the heap when it returns: the optimizer
    handed back is the new [DPOptimizer], the loader handed back is a
    non-empty loader, the module handed back is wrapped, and the engine is
    untouched. *)
Lemma make_private_post (self module optim data_loader : loc) sigma C bf lr
    (h : heap F) m' o' d' h' :
  make_private self module optim data_loader sigma C bf lr h
    = (Ok (m', o', d'), h') ->
  exists d inner ps e g,
    h' !! o' = Some (a_DPOptimizer (wrapped_by self inner ps sigma C lr d)) /\
    get_data_loader d' h' = (Ok d, h') /\
    batches d <> 0 /\
    h !! self = Some (a_PrivacyEngine e) /\
    h' !! self = Some (a_PrivacyEngine e) /\
    h' !! m' = Some (a_GradSampleModule g) /\
    last (forward_pre_hooks g) = Some (partial_virtual_step_hook o').
Proof.
  intros H. apply make_private_inv in H.
  destruct H as (h2 & g & d & inner & ps & Hp & [e He] & Hg & Hd & Hn & -> & ->).
  assert (Hm : (m' < length h2)%nat) by (eapply lookup_lt_Some; eauto).
  exists d, inner, ps, e, (with_forward_pre_hook g (partial_virtual_step_hook (length h2))).
  assert (He2 : h2 !! self = Some (a_PrivacyEngine e))
    by (eapply prefix_lookup_Some; eauto).
  assert (Hne : m' <> self) by congruence.
  repeat split.
  - rewrite list_lookup_insert_ne by lia. by apply list_lookup_middle.
  - assert (Hd' : (d' < length h2)%nat)
      by (destruct Hd as [Hd|Hd]; eapply lookup_lt_Some; eauto).
    assert (Hne' : m' <> d') by (destruct Hd; congruence).
    unfold get_data_loader.
    rewrite list_lookup_insert_ne by done. rewrite lookup_app_l by done.
    by destruct Hd as [-> | ->].
  - done.
  - done.
  - rewrite list_lookup_insert_ne by done. rewrite lookup_app_l; [done|].
    eapply lookup_lt_Some; eauto.
  - apply list_lookup_insert_eq. rewrite length_app. lia.
  - simpl. by rewrite last_snoc.
Qed.


Lemma fst_bind_congr {A B} (m : M F A) (k1 k2 : A -> M F B) (h : heap F) :
  (forall a h1, m h = (Ok a, h1) -> fst (k1 a h1) = fst (k2 a h1)) ->
  fst (bind m k1 h) = fst (bind m k2 h).
Proof. intros Hk. unfold bind. destruct (m h) as [[a|e] h1]; auto. Qed.

(** Wrapping the optimizer, once the module is wrapped: the outcome is the
    next free reference, or a [TypeError] when the optimizer to wrap is not
    an optimizer; the numbers play no part. *)
Lemma wrap_optimizer_outcome (self optim m' d' : loc) sigma C ebs rate lr
    (h : heap F) g :
  h !! m' = Some (a_GradSampleModule g) ->
  fst ((o <- _prepare_optimizer self optim sigma C ebs lr ;;
        attach_step_hook o (accountant_hook_closure self rate) ;;
        register_forward_pre_hook m' (partial_virtual_step_hook o) ;;
        ret (m', o, d')) h)
  = match fst (_prepare_optimizer self optim sigma C ebs lr h) with
    | Ok _ => Ok (m', length h, d')
    | Raise e => Raise e
    end.
Proof.
  intros Hg.
  destruct (_prepare_optimizer self optim sigma C ebs lr h) as [r h1] eqn:E.
  pose proof (_prepare_optimizer_inv _ _ _ _ _ _ _ _ _ E) as I.
  destruct r as [o|e].
  - destruct I as (-> & inner & ps & _ & ->).
    rewrite (bind_ok _ _ _ _ _ E).
    erewrite (bind_ok (attach_step_hook _ _))
      by (apply attach_step_hook_ok; by apply list_lookup_middle).
    erewrite (bind_ok (register_forward_pre_hook _ _)); [done|].
    apply register_forward_pre_hook_ok.
    rewrite list_lookup_insert_ne
      by (apply lookup_lt_Some in Hg; lia).
    rewrite lookup_app_l; [exact Hg|]. eapply lookup_lt_Some; eauto.
  - by rewrite (bind_raise _ _ _ _ _ E).
Qed.

Lemma _prepare_optimizer_outcome_independent (self optim : loc)
    sigma C ebs sigma' C' ebs' lr (h : heap F) :
  fst (_prepare_optimizer self optim sigma C ebs lr h)
  = fst (_prepare_optimizer self optim sigma' C' ebs' lr h).
Proof.
  unfold _prepare_optimizer. apply fst_bind_congr. intros o h1 _.
  unfold DPOptimizer_init. apply fst_bind_congr. intros ps h2 _. done.
Qed.

(** The outcome of [make_private] (the references handed back, or the
    exception) is independent of the numeric arguments. *)
Lemma make_private_outcome_independent (self module optim data_loader : loc)
    (sigma C sigma' C' : F) (bf : bool) (lr : string) (h : heap F) :
  fst (make_private self module optim data_loader sigma C bf lr h)
  = fst (make_private self module optim data_loader sigma' C' bf lr h).
Proof.
  unfold make_private.
  apply fst_bind_congr. intros m' h1 Hm.
  apply fst_bind_congr. intros d' h2 Hd.
  apply fst_bind_congr. intros n h3 Hn.
  apply fst_bind_congr. intros rate h4 Hr.
  apply fst_bind_congr. intros size h5 Hs.
  assert (Hh : h5 = h2).
  { unfold len in Hn. unfold len_dataset in Hs.
    apply bind_inv in Hn as [(? & ? & Hn & Hn') | (? & _ & ?)]; [|discriminate].
    apply bind_inv in Hs as [(? & ? & Hs & Hs') | (? & _ & ?)]; [|discriminate].
    unfold py_truediv in Hr. destruct (n =? 0); [discriminate|].
    unfold ret in *. apply get_data_loader_inv in Hn as [Hn _].
    apply get_data_loader_inv in Hs as [Hs _]. congruence. }
  rewrite Hh. clear Hn Hr Hs Hh.
  assert (Hg : exists g, h2 !! m' = Some (a_GradSampleModule g)).
  { apply _prepare_model_inv in Hm. apply _prepare_data_loader_inv in Hd.
    destruct Hd as [_ Hd].
    assert (Hp : h1 `prefix_of` h2).
    { destruct Hd as [[_ ->] | (? & _ & _ & ->)]; [done|by apply prefix_app_r]. }
    destruct Hm as [(g & Hg & -> & ->) | (ps0 & Hg & -> & ->)].
    - exists g. eapply prefix_lookup_Some; eauto.
    - eexists. eapply prefix_lookup_Some; [|exact Hp].
      by apply list_lookup_middle. }
  destruct Hg as [g Hg].
  rewrite !(wrap_optimizer_outcome _ _ _ _ _ _ _ _ _ _ _ Hg).
  by rewrite (_prepare_optimizer_outcome_independent self optim sigma C _ sigma' C'
                (to_int (fmul (of_int size) rate)) lr h2).
Qed.

(** C8: [make_private] does not validate its numeric arguments.  For every
    noise multiplier [sigma] and clipping norm [C] (zero and negative values
    included) it never raises [InvalidParameterError]; what it returns or
    raises does not depend on them; and when it returns, the optimizer
    handed back holds exactly the two values passed in. *)
Theorem make_private_does_not_validate (self module optim data_loader : loc)
    (sigma C : F) (bf : bool) (lr : string) (h : heap F) :
  match make_private self module optim data_loader sigma C bf lr h with
  | (Ok (_, o', _), h') =>
      exists o, h' !! o' = Some (a_DPOptimizer o) /\
                noise_multiplier o = sigma /\ max_grad_norm o = C
  | (Raise e, _) => e <> InvalidParameterError
  end
  /\ forall sigma' C',
       fst (make_private self module optim data_loader sigma C bf lr h)
       = fst (make_private self module optim data_loader sigma' C' bf lr h).
Proof.
  split; [|intros; apply make_private_outcome_independent].
  destruct (make_private self module optim data_loader sigma C bf lr h)
    as [[[[m' o'] d']|e] h'] eqn:E.
  - apply make_private_post in E as (d & inner & ps & e & g & Ho & _).
    eexists. split; [exact Ho|]. done.
  - apply make_private_inv in E as [-> | ->]; discriminate.
Qed.
End Wrapping.

(** ** Wrapping for the first time *)

Section First_wrapping.
Context {F : Type} {float_ops : PyFloat F} {wrapper : DataLoaderWrapper}.

(** X2: on a plain model, optimizer and loader, with the standard engine
    and a wrapped loader that is not empty, [make_private] returns: the three
    wrappers are the next three objects of the heap, in the order model,
    loader, optimizer. *)
Lemma make_private_returns (self module optim data_loader : loc)
    (sigma C : F) (bf : bool) (lr : string) (h : heap F)
    (e : PrivacyEngine F) (ps ps' : list loc) (d : DataLoader) :
  h !! self = Some (a_PrivacyEngine e) ->
  cls e = PrivacyEngine_cls ->
  h !! module = Some (a_Module ps) ->
  h !! optim = Some (an_Optimizer ps') ->
  h !! data_loader = Some (a_DataLoader d) ->
  batches (from_data_loader d) <> 0 ->
  let n := length h in
  make_private self module optim data_loader sigma C bf lr h =
    (Ok (n, S (S n), S n),
     h ++ [ a_GradSampleModule
              {| _module := module; batch_first := bf;
                 gsm_loss_reduction := lr; gsm_parameters := ps;
                 forward_pre_hooks := [partial_virtual_step_hook (S (S n))] |};
            a_DPDataLoader (from_data_loader d);
            a_DPOptimizer
              (wrapped_by self optim ps' sigma C lr (from_data_loader d)) ]).
Proof.
  intros He Hc Hm Ho Hd Hn n.
  assert (Lm : (module < length h)%nat) by (eapply lookup_lt_Some; eauto).
  assert (Lo : (optim < length h)%nat) by (eapply lookup_lt_Some; eauto).
  assert (Ld : (data_loader < length h)%nat) by (eapply lookup_lt_Some; eauto).
  assert (Ls : (self < length h)%nat) by (eapply lookup_lt_Some; eauto).
  set (g := {| _module := module; batch_first := bf; gsm_loss_reduction := lr;
               gsm_parameters := ps; forward_pre_hooks := [] |}).
  set (h1 := h ++ [a_GradSampleModule g]).
  set (h2 := h1 ++ [a_DPDataLoader (from_data_loader d)]).
  assert (E1 : _prepare_model self module bf lr h = (Ok n, h1)).
  { unfold _prepare_model, bind at 1, as_GradSampleModule. rewrite Hm.
    unfold GradSampleModule_init, bind, parameters, alloc. by rewrite Hm. }
  assert (He1 : h1 !! self = Some (a_PrivacyEngine e))
    by (unfold h1; by rewrite lookup_app_l).
  assert (Hd1 : h1 !! data_loader = Some (a_DataLoader d))
    by (unfold h1; by rewrite lookup_app_l).
  assert (L1 : length h1 = S n)
    by (unfold h1; rewrite length_app; simpl; fold n; lia).
  assert (E2 : _prepare_data_loader self data_loader h1 = (Ok (S n), h2)).
  { unfold _prepare_data_loader, bind at 1, get_cls. rewrite He1, Hc.
    unfold PrivacyEngine_prepare_data_loader, bind at 1, as_DPDataLoader.
    rewrite Hd1. unfold bind, get_data_loader, alloc. by rewrite Hd1, L1. }
  assert (L2 : length h2 = S (S n))
    by (unfold h2; rewrite length_app, L1; simpl; lia).
  assert (E3 : get_data_loader (S n) h2 = (Ok (from_data_loader d), h2)).
  { unfold get_data_loader. unfold h2 at 1.
    by rewrite (list_lookup_middle h1 [] _ (S n)). }
  unfold make_private.
  rewrite (bind_ok _ _ _ _ _ E1), (bind_ok _ _ _ _ _ E2).
  unfold len, len_dataset.
  rewrite (bind_ok _ _ _ _ _ (bind_ok _ _ _ _ _ E3)).
  unfold py_truediv.
  destruct (Z.eqb_spec (batches (from_data_loader d)) 0) as [|_]; [done|].
  unfold ret at 1 2. unfold bind at 1.
  rewrite (bind_ok _ _ _ _ _ (bind_ok _ _ _ _ _ E3)). unfold ret at 1.
  assert (Ho2 : h2 !! optim = Some (an_Optimizer ps')).
  { unfold h2. rewrite lookup_app_l by lia. unfold h1. by rewrite lookup_app_l. }
  assert (E4 : forall ebs,
             _prepare_optimizer self optim sigma C ebs lr h2 =
               (Ok (S (S n)),
                h2 ++ [a_DPOptimizer
                         {| optimizer := optim; params := ps';
                            noise_multiplier := sigma; max_grad_norm := C;
                            expected_batch_size := ebs; loss_reduction := lr;
                            accumulated_iterations := 0; step_hooks := [] |}])).
  { intros ebs. unfold _prepare_optimizer, bind at 1, as_DPOptimizer.
    rewrite Ho2. unfold DPOptimizer_init, bind, param_groups, alloc.
    by rewrite Ho2, L2. }
  rewrite (bind_ok _ _ _ _ _ (E4 _)).
  erewrite (bind_ok (attach_step_hook _ _))
    by (apply attach_step_hook_ok; by apply list_lookup_middle).
  rewrite <- L2. rewrite insert_app_r_alt by done. rewrite Nat.sub_diag.
  cbn [insert list_insert with_step_hook step_hooks app].
  assert (Hg : h2 !! n = Some (a_GradSampleModule g)).
  { unfold h2. rewrite lookup_app_l by lia. unfold h1. by apply list_lookup_middle. }
  erewrite (bind_ok (register_forward_pre_hook _ _)).
  2:{ apply register_forward_pre_hook_ok. rewrite lookup_app_l by lia. exact Hg. }
  unfold ret. f_equal. rewrite L2. subst h2 h1. rewrite <- !app_assoc.
  rewrite insert_app_r_alt by (subst n; lia). subst n. by rewrite Nat.sub_diag.
Qed.

End First_wrapping.

(** On exact rationals [int()] of a non-negative number is its floor. *)
Lemma to_int_floor (q : Q) : (0 <= q)%Q -> to_int q = Qfloor q.
Proof.
  destruct q as [n d]. unfold Qle. simpl. intros Hn.
  apply Z.quot_div_nonneg; lia.
Qed.

(** The derived parameters in binary64: for 49 batches over 49 records,
    [sample_rate = 1/49] rounds down, [49 * sample_rate] is just below 1,
    and [expected_batch_size] is 0. *)
Lemma expected_batch_size_in_binary64 :
  let h : heap float :=
    [ a_PrivacyEngine {| cls := PrivacyEngine_cls;
                         accountant := {| steps := [] |};
                         secure_mode := false |};
      a_Module []; an_Optimizer [];
      a_DataLoader {| batches := 49; dataset_size := 49 |} ] in
  exists h' o,
    make_private 0%nat 1%nat 2%nat 3%nat (of_int 1) (of_int 1) true
      "mean"%string h = (Ok (4%nat, 6%nat, 5%nat), h')
    /\ h' !! 6%nat = Some (a_DPOptimizer o)
    /\ expected_batch_size o = 0.
Proof.
  intros h. eexists. eexists.
  split; [vm_compute; reflexivity|]. split; reflexivity.
Qed.

(** ** Virtual steps and the real step *)

Section Stepping_the_optimizer.
Context {F : Type} {float_ops : PyFloat F} {wrapper : DataLoaderWrapper}
  {calibrator : Calibrator F} {renyi : RenyiAccounting F}.






Lemma real_step_noop (optim : loc) (h : heap F) o :
  h !! optim = Some (a_DPOptimizer o) ->
  accumulated_iterations o = 0 ->
  step optim h = (Ok tt, h).
Proof.
  intros Ho Hz. unfold step.
  rewrite (bind_ok _ _ _ _ _ (get_DPOptimizer_ok _ _ _ Ho)). by rewrite Hz.
Qed.

(** C6: a real step with zero accumulated iterations is a no-op: it
    returns normally and leaves the heap as it was, so the ledger of every
    engine (its length included) is unchanged. *)
Theorem step_with_nothing_accumulated (optim : loc) (h : heap F) (o : DPOptimizer F) :
  h !! optim = Some (a_DPOptimizer o) ->
  accumulated_iterations o = 0 ->
  step optim h = (Ok tt, h)
  /\ forall self, get_accountant self (snd (step optim h)) = get_accountant self h.
Proof.
  intros Ho Hz.
  assert (E : step optim h = (Ok tt, h))
    by (by apply (real_step_noop optim h o)).
  split; [exact E|]. intros self. by rewrite E.
Qed.



End Stepping_the_optimizer.

(** An instance of C6: the real step right after wrapping. *)
Lemma step_with_nothing_accumulated_witness :
  step Fixture.dp_optimizer Fixture.wrapped = (Ok tt, Fixture.wrapped)
  /\ forall self,
       get_accountant self (snd (step Fixture.dp_optimizer Fixture.wrapped))
       = get_accountant self Fixture.wrapped.
Proof.
  exact (step_with_nothing_accumulated Fixture.dp_optimizer Fixture.wrapped
           (wrapped_by Fixture.engine Fixture.sgd [Fixture.weight; Fixture.bias]
              Fixture.one Fixture.one "mean"%string
              {| batches := 4; dataset_size := 10 |})
           eq_refl eq_refl).
Defined.

(** The no-op is the optimizer's: [accountant_hook] itself has no guard.
    Called on the freshly wrapped optimizer (zero iterations) it asks the
    accountant to record a sample rate of 0, which the accountant
    refuses. *)
Lemma accountant_hook_with_nothing_accumulated :
  accountant_hook Fixture.engine (truediv 1 4) Fixture.dp_optimizer Fixture.wrapped
  = (Raise InvalidParameterError, Fixture.wrapped).
Proof. reflexivity. Qed.


(** ** Wrapping what is already wrapped *)

(** C4, the counterexample.  In the heap [make_private] left behind, the
    model, the optimizer and the loader are wrappers; passing them through
    [make_private] again does not hand back the same three objects: the
    optimizer handed back is a new one. *)
Lemma rewrapping_returns_a_new_optimizer :
  let h := Fixture.wrapped in
  (exists g, h !! Fixture.dp_model = Some (a_GradSampleModule g)) /\
  (exists o, h !! Fixture.dp_optimizer = Some (a_DPOptimizer o)) /\
  (exists d, h !! Fixture.dp_loader = Some (a_DPDataLoader d)) /\
  fst (make_private Fixture.engine Fixture.dp_model Fixture.dp_optimizer
         Fixture.dp_loader Fixture.one Fixture.one true "mean"%string h)
  <> Ok (Fixture.dp_model, Fixture.dp_optimizer, Fixture.dp_loader).
Proof.
  intros h. repeat split; try (eexists; reflexivity).
  vm_compute. intros E. discriminate E.
Qed.

Section Rewrapping.
Context {F : Type} {float_ops : PyFloat F} {wrapper : DataLoaderWrapper}
  {calibrator : Calibrator F} {renyi : RenyiAccounting F}.

Lemma _prepare_model_wrapped (self module : loc) bf lr (h : heap F) g :
  h !! module = Some (a_GradSampleModule g) ->
  _prepare_model self module bf lr h = (Ok module, h).
Proof.
  intros E. unfold _prepare_model, bind, as_GradSampleModule. by rewrite E.
Qed.

Lemma _prepare_data_loader_wrapped (self data_loader : loc) (h : heap F) e d :
  h !! self = Some (a_PrivacyEngine e) ->
  h !! data_loader = Some (a_DPDataLoader d) ->
  _prepare_data_loader self data_loader h = (Ok data_loader, h).
Proof.
  intros He Hd. unfold _prepare_data_loader, bind, get_cls. rewrite He.
  destruct (cls e); [|done].
  unfold PrivacyEngine_prepare_data_loader, bind, as_DPDataLoader. by rewrite Hd.
Qed.

Lemma _prepare_data_loader_unsafe (self data_loader : loc) (h : heap F) e :
  h !! self = Some (a_PrivacyEngine e) ->
  cls e = PrivacyEngineUnsafeKeepDataLoader_cls ->
  _prepare_data_loader self data_loader h = (Ok data_loader, h).
Proof.
  intros He Hc. unfold _prepare_data_loader, bind, get_cls. by rewrite He, Hc.
Qed.

Lemma _prepare_optimizer_wrapped (self optim : loc) sigma C ebs lr (h : heap F) o ps :
  h !! optim = Some (a_DPOptimizer o) ->
  param_groups (optimizer o) h = (Ok ps, h) ->
  _prepare_optimizer self optim sigma C ebs lr h =
    (Ok (length h),
     h ++ [a_DPOptimizer
             {| optimizer := optimizer o; params := ps;
                noise_multiplier := sigma; max_grad_norm := C;
                expected_batch_size := ebs; loss_reduction := lr;
                accumulated_iterations := 0; step_hooks := [] |}]).
Proof.
  intros Ho Hps. unfold _prepare_optimizer, bind at 1, as_DPOptimizer.
  rewrite Ho. unfold DPOptimizer_init, wrapped_optimizer.
  by rewrite (bind_ok _ _ _ _ _ Hps).
Qed.

(** C4, amended.  Passing an already wrapped model, optimizer and loader
    through [make_private] hands back the model wrapper and the loader
    wrapper themselves, and a new [DPOptimizer] built around the optimizer
    the old [DPOptimizer] wraps: never a wrapper around a wrapper, but not
    the existing wrapper either (it is left as it was).  The engine
    variant that keeps the data loader hands back any data loader,
    wrapped or not, unchanged. *)
Theorem make_private_rewrapping (self module optim data_loader : loc)
    (sigma C : F) (bf : bool) (lr : string) (h : heap F)
    (g : GradSampleModule) (o : DPOptimizer F) (d : DataLoader)
    (e : PrivacyEngine F) (ps : list loc) :
  h !! self = Some (a_PrivacyEngine e) ->
  h !! module = Some (a_GradSampleModule g) ->
  h !! optim = Some (a_DPOptimizer o) ->
  h !! data_loader = Some (a_DPDataLoader d) ->
  param_groups (optimizer o) h = (Ok ps, h) ->
  batches d <> 0 ->
  let h' :=
    <[module := a_GradSampleModule
                  (with_forward_pre_hook g (partial_virtual_step_hook (length h)))]>
      (h ++ [a_DPOptimizer (wrapped_by self (optimizer o) ps sigma C lr d)]) in
  make_private self module optim data_loader sigma C bf lr h
    = (Ok (module, length h, data_loader), h')
  /\ length h <> optim
  /\ h' !! optim = Some (a_DPOptimizer o)
  /\ (cls e = PrivacyEngineUnsafeKeepDataLoader_cls ->
      forall l, _prepare_data_loader self l h = (Ok l, h)).
Proof.
  intros He Hg Ho Hd Hps Hn h'.
  assert (Hlt : (optim < length h)%nat) by (eapply lookup_lt_Some; eauto).
  assert (Hne : module <> optim) by congruence.
  split; [|split; [lia|split]].
  - unfold make_private.
    rewrite (bind_ok _ _ _ _ _ (_prepare_model_wrapped _ _ _ _ _ _ Hg)).
    rewrite (bind_ok _ _ _ _ _ (_prepare_data_loader_wrapped _ _ _ _ _ He Hd)).
    assert (Hget : get_data_loader data_loader h = (Ok d, h))
      by (unfold get_data_loader; by rewrite Hd).
    unfold len, len_dataset.
    rewrite (bind_ok _ _ _ _ _ (bind_ok _ _ _ _ _ Hget)).
    unfold py_truediv. destruct (Z.eqb_spec (batches d) 0) as [|_]; [done|].
    unfold ret at 1 2. unfold bind at 1.
    rewrite (bind_ok _ _ _ _ _ (bind_ok _ _ _ _ _ Hget)).
    unfold ret at 1.
    erewrite (bind_ok (_prepare_optimizer _ _ _ _ _ _))
      by (apply _prepare_optimizer_wrapped; eauto).
    erewrite (bind_ok (attach_step_hook _ _))
      by (apply attach_step_hook_ok; by apply list_lookup_middle).
    rewrite insert_app_r_alt by done. rewrite Nat.sub_diag.
    cbn [insert list_insert with_step_hook step_hooks app].
    erewrite (bind_ok (register_forward_pre_hook _ _)); [done|].
    apply register_forward_pre_hook_ok.
    rewrite lookup_app_l; [done|]. eapply lookup_lt_Some; eauto.
  - unfold h'. rewrite list_lookup_insert_ne by done.
    by rewrite lookup_app_l.
  - intros Hc l. by apply (_prepare_data_loader_unsafe self l h e).
Qed.

End Rewrapping.

(** An instance of the amended C4, on the wrapped fixture. *)
Lemma make_private_rewrapping_witness :
  let h := Fixture.wrapped in
  exists h',
    make_private Fixture.engine Fixture.dp_model Fixture.dp_optimizer
      Fixture.dp_loader Fixture.one Fixture.one true "mean"%string h
    = (Ok (Fixture.dp_model, length h, Fixture.dp_loader), h')
    /\ length h <> Fixture.dp_optimizer
    /\ (exists o, h' !! Fixture.dp_optimizer = Some (a_DPOptimizer o)
                  /\ optimizer o = Fixture.sgd)
    /\ (exists o, h' !! length h = Some (a_DPOptimizer o)
                  /\ optimizer o = Fixture.sgd).
Proof.
  intros h.
  pose proof (make_private_rewrapping (F := Q) Fixture.engine Fixture.dp_model
                Fixture.dp_optimizer Fixture.dp_loader Fixture.one Fixture.one
                true "mean"%string h _ _ _ _ _
                eq_refl eq_refl eq_refl eq_refl eq_refl) as W.
  simpl in W. destruct W as (E & Hne & Ho & _); [discriminate|].
  eexists. split; [exact E|]. split; [exact Hne|]. split.
  - eexists. split; [exact Ho|]. reflexivity.
  - eexists. split; reflexivity.
Defined.


(** ** secure_mode *)

Section Secure_mode.
Context {F : Type} {float_ops : PyFloat F} {wrapper : DataLoaderWrapper}
  {calibrator : Calibrator F} {renyi : RenyiAccounting F}.
Variables (b : bool) (self : loc).

Local Abbreviation blind_here := (@blind F b self _) (only parsing).

Lemma blind_ret {A} (a : A) : blind_here (ret a : M F A).
Proof. done. Qed.

Lemma blind_raise {A} (e : exn) : blind_here (raise e : M F A).
Proof. done. Qed.

Lemma blind_lift {A} (r : outcome A) : blind_here (lift r : M F A).
Proof. done. Qed.

Lemma blind_bind {A B} (m : M F A) (k : A -> M F B) :
  blind_here m -> (forall a, blind_here (k a)) -> blind_here (bind m k).
Proof.
  intros Hm Hk h. unfold bind. rewrite Hm. unfold after.
  destruct (m h) as [[a|e] h1]; simpl; [apply Hk|done].
Qed.

Lemma with_secure_mode_lookup (h : heap F) (l : loc) :
  with_secure_mode b self h !! l =
    if decide (self = l) then set_secure_mode b <$> h !! l else h !! l.
Proof.
  unfold with_secure_mode. rewrite list_lookup_alter.
  by destruct (decide (self = l)) as [->|].
Qed.

Lemma with_secure_mode_length (h : heap F) :
  length (with_secure_mode b self h) = length h.
Proof. apply length_alter. Qed.

(** Reading an attribute other than [secure_mode]. *)
Lemma blind_read {A} (sel : option (obj F) -> outcome A) (l : loc) :
  (forall x, sel (set_secure_mode b <$> x) = sel x) ->
  blind_here (fun h => (sel (h !! l), h)).
Proof.
  intros Hsel h. unfold after. simpl. rewrite with_secure_mode_lookup.
  destruct (decide (self = l)); by rewrite ?Hsel.
Qed.

Ltac blind_getter :=
  let h := fresh "h" in
  intros h; unfold after; simpl; rewrite with_secure_mode_lookup;
  match goal with
  | |- context [decide (self = ?l)] =>
      destruct (decide (self = l)); destruct (h !! l) as [[]|]; done
  end.

Lemma blind_as_GradSampleModule l : blind_here (as_GradSampleModule l).
Proof. unfold as_GradSampleModule. blind_getter. Qed.

Lemma blind_as_DPOptimizer l : blind_here (as_DPOptimizer l).
Proof. unfold as_DPOptimizer. blind_getter. Qed.

Lemma blind_as_DPDataLoader l : blind_here (as_DPDataLoader l).
Proof. unfold as_DPDataLoader. blind_getter. Qed.

Lemma blind_get_parameter l : blind_here (get_parameter l).
Proof. unfold get_parameter. blind_getter. Qed.

Lemma blind_get_GradSampleModule l : blind_here (get_GradSampleModule l).
Proof. unfold get_GradSampleModule. blind_getter. Qed.

Lemma blind_get_DPOptimizer l : blind_here (get_DPOptimizer l).
Proof. unfold get_DPOptimizer. blind_getter. Qed.

Lemma blind_get_data_loader l : blind_here (get_data_loader l).
Proof. unfold get_data_loader. blind_getter. Qed.

Lemma blind_get_cls l : blind_here (get_cls l).
Proof. unfold get_cls. blind_getter. Qed.

Lemma blind_get_accountant l : blind_here (get_accountant l).
Proof. unfold get_accountant. blind_getter. Qed.

Lemma blind_parameters l : blind_here (parameters l).
Proof. unfold parameters. blind_getter. Qed.

Lemma blind_param_groups l : blind_here (param_groups l).
Proof. unfold param_groups. blind_getter. Qed.

Lemma with_secure_mode_insert (h : heap F) (l : loc) (x : obj F) :
  with_secure_mode b self (<[l := x]> h) =
    <[l := if decide (self = l) then set_secure_mode b x else x]>
      (with_secure_mode b self h).
Proof.
  apply list_eq. intros i.
  rewrite with_secure_mode_lookup, !list_lookup_insert, with_secure_mode_length,
    with_secure_mode_lookup.
  repeat case_decide; subst; try done; exfalso; intuition (lia || congruence).
Qed.

Lemma with_secure_mode_snoc (h : heap F) (x : obj F) :
  set_secure_mode b x = x ->
  with_secure_mode b self (h ++ [x]) = with_secure_mode b self h ++ [x].
Proof.
  intros Hx. apply list_eq. intros i. rewrite with_secure_mode_lookup.
  destruct (decide (i < length h)%nat).
  - rewrite !lookup_app_l by (rewrite ?with_secure_mode_length; lia).
    by rewrite with_secure_mode_lookup.
  - rewrite !lookup_app_r by (rewrite ?with_secure_mode_length; lia).
    rewrite with_secure_mode_length.
    destruct (i - length h)%nat; simpl; case_decide; by rewrite ?Hx.
Qed.

Lemma with_secure_mode_update_parameters f ps (h : heap F) :
  with_secure_mode b self (update_parameters f ps h) =
    update_parameters f ps (with_secure_mode b self h).
Proof.
  unfold update_parameters. revert h.
  induction ps as [|p ps IH]; intros h; [done|].
  simpl. rewrite IH. f_equal.
  apply list_eq. intros i. unfold with_secure_mode.
  rewrite !list_lookup_alter.
  repeat case_decide; subst; rewrite ?list_lookup_alter_eq, ?list_lookup_alter_ne by done;
    try done.
  destruct (h !! i) as [[]|]; done.
Qed.

Lemma blind_alloc (x : obj F) : set_secure_mode b x = x -> blind_here (alloc x).
Proof.
  intros Hx h. unfold alloc, after. simpl.
  by rewrite with_secure_mode_length, with_secure_mode_snoc.
Qed.

Lemma blind_set_GradSampleModule l m : blind_here (set_GradSampleModule l m).
Proof.
  intros h. unfold set_GradSampleModule, after. simpl.
  rewrite with_secure_mode_insert. by case_decide.
Qed.

Lemma blind_set_DPOptimizer l o : blind_here (set_DPOptimizer l o).
Proof.
  intros h. unfold set_DPOptimizer, after. simpl.
  rewrite with_secure_mode_insert. by case_decide.
Qed.

Lemma blind_set_accountant l a : blind_here (set_accountant l a).
Proof.
  intros h. unfold set_accountant, after. rewrite with_secure_mode_lookup.
  destruct (decide (self = l)) as [<-|Hne];
    destruct (h !! _) as [[]|] eqn:E; simpl; try done;
    rewrite with_secure_mode_insert; by case_decide.
Qed.

Lemma blind_for_each_parameter f ps : blind_here (for_each_parameter f ps).
Proof.
  intros h. unfold for_each_parameter, after. simpl.
  by rewrite with_secure_mode_update_parameters.
Qed.

Create HintDb blind.

Hint Resolve blind_ret blind_raise blind_lift blind_as_GradSampleModule
  blind_as_DPOptimizer blind_as_DPDataLoader blind_get_parameter
  blind_get_GradSampleModule blind_get_DPOptimizer blind_get_data_loader
  blind_get_cls blind_get_accountant blind_parameters blind_param_groups
  blind_set_GradSampleModule blind_set_DPOptimizer blind_set_accountant
  blind_for_each_parameter : blind.

(** Blindness of a composite: go through the binds and case splits, and
    close each leaf with the lemmas above. *)
Ltac blind_steps :=
  repeat first
    [ solve [auto with blind]
    | apply blind_alloc; reflexivity
    | apply blind_bind; [|intros ?]
    | match goal with
      | |- blind _ _ (match ?x with _ => _ end) => destruct x
      | |- blind _ _ (if ?x then _ else _) => destruct x
      | |- blind _ _ (let _ := _ in _) => cbv zeta
      end ].

Lemma blind__prepare_model m bf lr : blind_here (_prepare_model self m bf lr).
Proof. unfold _prepare_model, GradSampleModule_init. blind_steps. Qed.

Lemma blind__prepare_data_loader d : blind_here (_prepare_data_loader self d).
Proof.
  unfold _prepare_data_loader, PrivacyEngine_prepare_data_loader,
    PrivacyEngineUnsafeKeepDataLoader_prepare_data_loader.
  blind_steps.
Qed.

Lemma blind__prepare_optimizer o sigma C ebs lr :
  blind_here (_prepare_optimizer self o sigma C ebs lr).
Proof. unfold _prepare_optimizer, DPOptimizer_init. blind_steps. Qed.

Hint Resolve blind__prepare_model blind__prepare_data_loader
  blind__prepare_optimizer : blind.

Lemma blind_make_private m o d sigma C bf lr :
  blind_here (make_private self m o d sigma C bf lr).
Proof.
  unfold make_private, len, len_dataset, py_truediv, attach_step_hook,
    register_forward_pre_hook.
  blind_steps.
Qed.

Hint Resolve blind_make_private : blind.

Lemma blind_make_private_with_epsilon m o d eps delta epochs C bf lr al smin smax :
  blind_here (make_private_with_epsilon self m o d eps delta epochs C bf lr al smin smax).
Proof.
  unfold make_private_with_epsilon, len, py_truediv.
  blind_steps.
Qed.

Lemma blind_get_epsilon delta al : blind_here (get_epsilon self delta al).
Proof. unfold get_epsilon. blind_steps. Qed.

Lemma blind_accountant_hook rate optim : blind_here (accountant_hook self rate optim).
Proof. unfold accountant_hook. blind_steps. Qed.

Lemma blind_run_step_hooks fns optim : blind_here (run_step_hooks fns optim).
Proof.
  induction fns as [|[self' rate] fns IH]; simpl; [apply blind_ret|].
  apply blind_bind; [|intros _; exact IH].
  unfold accountant_hook. blind_steps.
Qed.

Lemma blind_step optim : blind_here (step optim).
Proof.
  unfold step. pose proof blind_run_step_hooks. blind_steps.
Qed.

End Secure_mode.

(** C9: [secure_mode] has no effect.  An engine built with the flag set
    differs from one built without it in that flag alone, and running
    [make_private], [make_private_with_epsilon] or [get_epsilon] on the
    heap where the flag of [self] is [b] gives the same outcome as on the
    original heap, and the same final heap up to that flag: the flag is
    stored and never read. *)
Theorem secure_mode_has_no_effect {F : Type} {float_ops : PyFloat F}
    {wrapper : DataLoaderWrapper} {calibrator : Calibrator F}
    {renyi : RenyiAccounting F}
    (b : bool) (self module optim data_loader : loc) (sigma C : F)
    (bf : bool) (lr : string) (eps delta : F) (epochs : Z)
    (al : option (list F)) (smin smax : option F) (c : EngineClass)
    (h : heap F) :
  let W := with_secure_mode b self in
  PrivacyEngine_init c b h
    = after (with_secure_mode b (length h)) (PrivacyEngine_init c false h)
  /\ make_private self module optim data_loader sigma C bf lr (W h)
      = after W (make_private self module optim data_loader sigma C bf lr h)
  /\ make_private_with_epsilon self module optim data_loader eps delta epochs
        C bf lr al smin smax (W h)
      = after W (make_private_with_epsilon self module optim data_loader eps
                   delta epochs C bf lr al smin smax h)
  /\ get_epsilon self delta al (W h) = after W (get_epsilon self delta al h).
Proof.
  intros W. split; [|split; [|split]].
  - unfold PrivacyEngine_init, alloc, after, with_secure_mode. simpl.
    rewrite alter_app_r_alt by done. by rewrite Nat.sub_diag.
  - apply blind_make_private.
  - apply blind_make_private_with_epsilon.
  - apply blind_get_epsilon.
Qed.


(** ** Monotonicity of epsilon *)

Section Monotonicity.
Context {F : Type} {float_ops : PyFloat F} {renyi : RenyiAccounting F}
  {float_order : PyFloatOrder F}.

Lemma fle_refl (x : F) : fle x x = true.
Proof. by destruct (fle_total x x). Qed.

Lemma total_rdp_snoc (alpha : F) (ledger : list (PrivacyStep F)) s :
  total_rdp alpha (ledger ++ [s]) =
    fadd (total_rdp alpha ledger)
         (compute_rdp alpha (step_noise_multiplier s) (step_sample_rate s)).
Proof. unfold total_rdp. by rewrite fold_left_app. Qed.

(** Appending a step whose bound is non-negative does not lower the
    epsilon at any order. *)
Lemma eps_at_snoc (delta alpha : F) (ledger : list (PrivacyStep F)) s :
  fle (of_int 0)
      (compute_rdp alpha (step_noise_multiplier s) (step_sample_rate s)) = true ->
  fle (eps_at delta ledger alpha) (eps_at delta (ledger ++ [s]) alpha) = true.
Proof.
  intros Hr. unfold eps_at. rewrite total_rdp_snoc.
  apply fadd_le_mono. by apply fadd_nonneg.
Qed.

Lemma min_by_eps_In (best : F * F) (rest : list (F * F)) :
  In (min_by_eps best rest) (best :: rest).
Proof.
  revert best. induction rest as [|x rest IH]; intros best; simpl.
  - by left.
  - specialize (IH (if flt (fst x) (fst best) then x else best)).
    destruct (flt (fst x) (fst best)); destruct IH as [<-|IH]; auto.
Qed.

Lemma min_by_eps_le (best : F * F) (rest : list (F * F)) x :
  In x (best :: rest) -> fle (fst (min_by_eps best rest)) (fst x) = true.
Proof.
  revert best x. induction rest as [|y rest IH]; intros best x Hx; simpl.
  - destruct Hx as [<-|[]]. apply fle_refl.
  - set (best' := if flt (fst y) (fst best) then y else best).
    assert (Hb : fle (fst best') (fst best) = true /\ fle (fst best') (fst y) = true).
    { unfold best'. rewrite flt_fle.
      destruct (fle (fst best) (fst y)) eqn:E; simpl.
      - split; [apply fle_refl|done].
      - split; [|apply fle_refl].
        destruct (fle_total (fst best) (fst y)); congruence. }
    destruct Hb as [Hb Hy].
    destruct Hx as [<-|[<-|Hx]].
    + eapply fle_trans; [|exact Hb]. apply IH. by left.
    + eapply fle_trans; [|exact Hy]. apply IH. by left.
    + apply IH. by right.
Qed.

(** The smallest epsilon over the orders does not go down when every
    candidate goes up. *)
Lemma min_by_eps_mono (f g : F -> F) (alpha : F) (alphas : list F) :
  (forall a, In a (alpha :: alphas) -> fle (f a) (g a) = true) ->
  fle (fst (min_by_eps (f alpha, alpha) (map (fun a => (f a, a)) alphas)))
      (fst (min_by_eps (g alpha, alpha) (map (fun a => (g a, a)) alphas))) = true.
Proof.
  intros Hfg.
  pose proof (min_by_eps_In (g alpha, alpha) (map (fun a => (g a, a)) alphas)) as Hin.
  change ((g alpha, alpha) :: map (fun a => (g a, a)) alphas)
    with (map (fun a => (g a, a)) (alpha :: alphas)) in Hin.
  apply in_map_iff in Hin as (a & <- & Ha).
  simpl. eapply fle_trans; [|apply Hfg, Ha].
  apply (min_by_eps_le _ _ (f a, a)).
  change ((f alpha, alpha) :: map (fun a => (f a, a)) alphas)
    with (map (fun a => (f a, a)) (alpha :: alphas)).
  apply in_map_iff. eauto.
Qed.

(** C7: epsilon is non-decreasing when a step is appended.  For an engine
    with a non-empty ledger, a [delta] in (0, 1) and one further step with
    positive noise multiplier and sample rate in (0, 1], whose per-step
    Renyi bound is non-negative at every order: the accountant accepts the
    step, [get_epsilon] returns before and after it is recorded, and the
    value after is at least the value before. *)
Theorem epsilon_is_monotone (self : loc) (h : heap F) (e : PrivacyEngine F)
    (delta sigma q : F) (al al' : option (list F)) :
  h !! self = Some (a_PrivacyEngine e) ->
  steps (accountant e) <> [] ->
  fle delta (of_int 0) = false -> fle (of_int 1) delta = false ->
  fle sigma (of_int 0) = false ->
  fle q (of_int 0) = false -> flt (of_int 1) q = false ->
  orders <> [] ->
  (forall alpha, In alpha orders ->
     fle (of_int 0) (compute_rdp alpha sigma q) = true) ->
  exists a' h' eps eps',
    RDPAccountant_step (accountant e) sigma q = Ok a' /\
    get_epsilon self delta al h = (Ok eps, h) /\
    (set_accountant self a' ;; get_epsilon self delta al') h = (Ok eps', h') /\
    fle eps eps' = true.
Proof.
  intros He Hne Hd0 Hd1 Hs Hq0 Hq1 Hor Hrdp.
  set (s := {| step_noise_multiplier := sigma; step_sample_rate := q |}).
  set (a' := {| steps := steps (accountant e) ++ [s] |}).
  set (e' := {| cls := cls e; accountant := a'; secure_mode := secure_mode e |}).
  destruct orders as [|alpha alphas] eqn:Eo; [done|].
  exists a', (<[self := a_PrivacyEngine e']> h).
  exists (fst (min_by_eps (eps_at delta (steps (accountant e)) alpha, alpha)
                 (map (fun x => (eps_at delta (steps (accountant e)) x, x)) alphas))).
  exists (fst (min_by_eps (eps_at delta (steps a') alpha, alpha)
                 (map (fun x => (eps_at delta (steps a') x, x)) alphas))).
  split; [|split; [|split]].
  - unfold RDPAccountant_step. by rewrite Hs, Hq0, Hq1.
  - rewrite (get_epsilon_delegates self delta al h e He).
    unfold RDPAccountant_get_privacy_spent. rewrite Hd0, Hd1, Eo. simpl.
    by destruct (steps (accountant e)).
  - assert (Hset : set_accountant self a' h = (Ok tt, <[self := a_PrivacyEngine e']> h))
      by (unfold set_accountant; by rewrite He).
    rewrite (bind_ok _ _ _ _ _ Hset).
    rewrite (get_epsilon_delegates self delta al' _ e').
    2:{ apply list_lookup_insert_eq. eapply lookup_lt_Some; eauto. }
    unfold RDPAccountant_get_privacy_spent. rewrite Hd0, Hd1, Eo. simpl.
    by destruct (steps (accountant e)).
  - apply (min_by_eps_mono (eps_at delta (steps (accountant e)))
             (eps_at delta (steps a'))).
    intros x Hx. apply eps_at_snoc. by apply Hrdp.
Qed.

End Monotonicity.

(** An instance of C7: a ledger holding the step (1, 1/4), delta = 1/100,
    and the same step once more. *)
Lemma epsilon_is_monotone_witness :
  let e : PrivacyEngine Q :=
    {| cls := PrivacyEngine_cls;
       accountant := {| steps := [{| step_noise_multiplier := Qmake 1 1;
                                     step_sample_rate := Qmake 1 4 |}] |};
       secure_mode := false |} in
  let h : heap Q := [a_PrivacyEngine e] in
  exists a' h' eps eps',
    RDPAccountant_step (accountant e) (Qmake 1 1) (Qmake 1 4) = Ok a' /\
    get_epsilon 0%nat (Qmake 1 100) None h = (Ok eps, h) /\
    (set_accountant 0%nat a' ;; get_epsilon 0%nat (Qmake 1 100) None) h
      = (Ok eps', h') /\
    fle eps eps' = true.
Proof.
  intros e h.
  refine (epsilon_is_monotone 0%nat h e (Qmake 1 100) (Qmake 1 1) (Qmake 1 4)
            None None eq_refl _ eq_refl eq_refl eq_refl eq_refl eq_refl _ _).
  - discriminate.
  - discriminate.
  - intros alpha [<-|[<-|[<-|[<-|[]]]]]; reflexivity.
Defined.


(** ** The pre-forward hook *)

(** C1, at the failing input.  Both parameters of the wrapped model are
    trainable; the first has per-example gradients and a clean gradient,
    the second a gradient still marked as noised.  The hook does not raise:
    the loop stops at the first parameter with [has_grad_sample = True],
    the virtual step is taken (the optimizer now counts one iteration) and
    the stale gradient is cleared. *)
Lemma virtual_step_hook_misses_later_stale_gradient :
  let h := Fixture.stale_second_parameter in
  parameters Fixture.dp_model h = (Ok [Fixture.weight; Fixture.bias], h)
  /\ get_parameter Fixture.bias h
     = (Ok {| requires_grad := true; grad := Some {| has_noise := true |};
              grad_sample := Some {| has_noise := false |} |}, h)
  /\ scan_parameters [Fixture.weight; Fixture.bias] h = (Ok true, h)
  /\ exists h',
       virtual_step_hook Fixture.dp_model Fixture.dp_optimizer h = (Ok tt, h')
       /\ (exists o, h' !! Fixture.dp_optimizer = Some (a_DPOptimizer o)
                     /\ accumulated_iterations o = 1)
       /\ h' !! Fixture.bias = Some (a_Parameter Fixture.fresh_parameter).
Proof.
  intros h. split; [reflexivity|]. split; [reflexivity|]. split; [reflexivity|].
  eexists. split; [vm_compute; reflexivity|].
  split; [eexists; split; reflexivity|reflexivity].
Qed.

(** With the stale gradient on the first parameter instead, the same hook
    raises. *)
Lemma virtual_step_hook_raises_on_first_stale_gradient :
  let h : heap Q :=
    <[Fixture.weight := a_Parameter {| requires_grad := true;
                                       grad := Some {| has_noise := true |};
                                       grad_sample := None |}]>
      Fixture.stale_second_parameter in
  virtual_step_hook Fixture.dp_model Fixture.dp_optimizer h
  = (Raise UnclearedGradientError, h).
Proof. reflexivity. Qed.

(** The failing input of C1 is reachable through the engine's own
    operations and one unfreezing: train with the first parameter frozen
    (a real step leaves a noised gradient on the second), unfreeze the
    first, and run the next backward pass without clearing gradients.  The
    next forward pass then goes through without an error, and one more
    iteration is accumulated on top of the stale gradient. *)
Lemma stale_gradient_after_unfreezing :
  let frozen : heap Q :=
    <[Fixture.weight := a_Parameter {| requires_grad := false; grad := None;
                                       grad_sample := None |}]>
      (Fixture.unwrapped PrivacyEngine_cls) in
  let train :=
    wrapped <- make_private Fixture.engine Fixture.model Fixture.sgd
                 Fixture.loader Fixture.one Fixture.one true "mean"%string ;;
    let '(m, o, _) := wrapped in
    forward m ;; backward m ;; forward m ;; step o ;;
    set_requires_grad Fixture.weight true ;;
    backward m in
  exists h,
    train frozen = (Ok tt, h)
    /\ get_parameter Fixture.weight h
       = (Ok {| requires_grad := true; grad := Some {| has_noise := false |};
                grad_sample := Some {| has_noise := false |} |}, h)
    /\ get_parameter Fixture.bias h
       = (Ok {| requires_grad := true; grad := Some {| has_noise := true |};
                grad_sample := Some {| has_noise := false |} |}, h)
    /\ fst (forward Fixture.dp_model h) = Ok tt.
Proof.
  intros frozen train. eexists.
  split; [vm_compute; reflexivity|]. repeat split.
Qed.

Section Hook.
Context {F : Type} {float_ops : PyFloat F} {wrapper : DataLoaderWrapper}
  {calibrator : Calibrator F} {renyi : RenyiAccounting F}.

Lemma get_parameter_ok (l : loc) (h : heap F) P :
  h !! l = Some (a_Parameter P) -> get_parameter l h = (Ok P, h).
Proof. intros E. unfold get_parameter. now rewrite E. Qed.

(** The loop, in closed form: its verdict is read off the first decisive
    parameter, and later parameters are not looked at. *)
Lemma scan_parameters_find (ps : list loc) (Ps : list nnParameter) (h : heap F) :
  Forall2 (fun p P => h !! p = Some (a_Parameter P)) ps Ps ->
  scan_parameters ps h =
    (match find decisive Ps with
     | Some P => if noisy P then Raise UnclearedGradientError else Ok true
     | None => Ok false
     end, h).
Proof.
  induction 1 as [|p P ps Ps Hp _ IH]; [done|].
  cbn [scan_parameters find].
  rewrite (bind_ok _ _ _ _ _ (get_parameter_ok _ _ _ Hp)).
  unfold decisive, noisy, has_grad_sample.
  destruct P as [rg [[[]]|] [gs|]]; destruct rg; simpl; try done.
Qed.

(** The scan never touches the heap. *)
Lemma scan_parameters_heap (ps : list loc) (h : heap F) :
  snd (scan_parameters ps h) = h.
Proof.
  induction ps as [|p ps IH]; [done|].
  cbn [scan_parameters]. unfold bind, get_parameter.
  destruct (h !! p) as [[P| | | | | | |]|]; try done.
  destruct (negb (requires_grad P)); [done|].
  destruct (grad P) as [[[]]|]; try done; destruct (grad_sample P); done.
Qed.

(** When the hook raises its error nothing has been done: no virtual step,
    no gradient cleared. *)
Lemma virtual_step_hook_raise_leaves_heap (module optim : loc) (h h' : heap F) :
  virtual_step_hook module optim h = (Raise UnclearedGradientError, h') -> h' = h.
Proof.
  unfold virtual_step_hook, UnclearedGradientError. intros H.
  apply bind_inv in H as [(ps & h1 & Hps & H) | (e & Hps & _)].
  2:{ unfold parameters in Hps. destruct (h !! module) as [[]|]; congruence. }
  assert (h1 = h) as ->
    by (unfold parameters in Hps; destruct (h !! module) as [[]|]; congruence).
  apply bind_inv in H as [(b & h2 & Hs & H) | (e & Hs & _)].
  2:{ pose proof (scan_parameters_heap ps h) as Hh. by rewrite Hs in Hh. }
  pose proof (scan_parameters_heap ps h) as Hh. rewrite Hs in Hh. simpl in Hh.
  subst h2. destruct b; [|discriminate H].
  apply bind_inv in H as [(u & h3 & Hv & H) | (e & Hv & He)].
  - unfold zero_grad in H.
    apply bind_inv in H as [(ps' & h4 & Hp' & H) | (e & Hp' & He)].
    + discriminate H.
    + unfold parameters in Hp'. destruct (h3 !! module) as [[]|]; congruence.
  - unfold virtual_step in Hv.
    apply bind_inv in Hv as [(o & h4 & Ho & Hv) | (e' & Ho & He')].
    + unfold bind, for_each_parameter, set_DPOptimizer in Hv. discriminate Hv.
    + unfold get_DPOptimizer in Ho. destruct (h !! optim) as [[]|]; congruence.
Qed.

(** The hook on a module whose parameters are [Ps]: it raises when the
    first decisive parameter holds a noised gradient, takes the virtual
    step and clears the gradients when the first decisive parameter holds
    none, and does nothing when no parameter is decisive. *)
Lemma virtual_step_hook_run (module optim : loc) (ps : list loc)
    (Ps : list nnParameter) (h : heap F) :
  parameters module h = (Ok ps, h) ->
  Forall2 (fun p P => h !! p = Some (a_Parameter P)) ps Ps ->
  virtual_step_hook module optim h =
    match find decisive Ps with
    | Some P =>
        if noisy P then (Raise UnclearedGradientError, h)
        else (virtual_step optim ;; zero_grad module) h
    | None => (Ok tt, h)
    end.
Proof.
  intros Hps HPs. unfold virtual_step_hook.
  rewrite (bind_ok _ _ _ _ _ Hps).
  unfold bind at 1. rewrite (scan_parameters_find ps Ps h HPs).
  destruct (find decisive Ps) as [P|]; [|done]. by destruct (noisy P).
Qed.

(** X3: if no trainable parameter holds a noised gradient and some
    trainable parameter has per-example gradients, the hook takes the
    virtual step and then clears the gradients of the module. *)
Lemma virtual_step_hook_accumulates (module optim : loc) (ps : list loc)
    (Ps : list nnParameter) (h : heap F) :
  parameters module h = (Ok ps, h) ->
  Forall2 (fun p P => h !! p = Some (a_Parameter P)) ps Ps ->
  (forall P, In P Ps -> requires_grad P = true -> noisy P = false) ->
  (exists P, In P Ps /\ requires_grad P = true /\ has_grad_sample P = true) ->
  virtual_step_hook module optim h = (virtual_step optim ;; zero_grad module) h.
Proof.
  intros Hps HPs Hclean (P0 & Hin & Hrg & Hgs).
  rewrite (virtual_step_hook_run module optim ps Ps h Hps HPs).
  destruct (find decisive Ps) as [P|] eqn:E.
  - apply find_some in E as [HP Hd]. unfold decisive in Hd.
    apply andb_true_iff in Hd as [Hr _]. by rewrite (Hclean P HP Hr).
  - exfalso. pose proof (find_none _ _ E P0 Hin) as Hn.
    unfold decisive in Hn. by rewrite Hrg, Hgs, orb_true_r in Hn.
Qed.

(** X4: if a trainable parameter holds a noised gradient and no trainable
    parameter before it has per-example gradients or a noised gradient,
    the hook raises its [ValueError], and nothing has been changed. *)
Lemma virtual_step_hook_raises (module optim : loc) (ps : list loc)
    (Ps Ps1 Ps2 : list nnParameter) (P : nnParameter) (h : heap F) :
  parameters module h = (Ok ps, h) ->
  Forall2 (fun p P => h !! p = Some (a_Parameter P)) ps Ps ->
  Ps = Ps1 ++ P :: Ps2 ->
  (forall P', In P' Ps1 -> requires_grad P' = true ->
              noisy P' = false /\ has_grad_sample P' = false) ->
  requires_grad P = true -> noisy P = true ->
  virtual_step_hook module optim h = (Raise UnclearedGradientError, h).
Proof.
  intros Hps HPs -> Hbefore Hrg Hn.
  rewrite (virtual_step_hook_run module optim ps _ h Hps HPs).
  assert (E : find decisive (Ps1 ++ P :: Ps2) = Some P).
  { clear HPs. induction Ps1 as [|P1 Ps1 IH]; simpl.
    - unfold decisive. by rewrite Hrg, Hn.
    - assert (Hd : decisive P1 = false).
      { unfold decisive. destruct (requires_grad P1) eqn:E1; [|done].
        destruct (Hbefore P1 (or_introl eq_refl) E1) as [-> ->]. done. }
      rewrite Hd. apply IH. intros P' HP'. apply Hbefore. by right. }
  by rewrite E, Hn.
Qed.

End Hook.

(** * Further properties of the engine *)

(** ** What [make_private] changes, and what it leaves alone *)

Section Effects.
Context {F : Type} {float_ops : PyFloat F} {wrapper : DataLoaderWrapper}
  {renyi : RenyiAccounting F}.

Lemma bind_congr {A B} (m : M F A) (k1 k2 : A -> M F B) (h : heap F) :
  (forall a h1, m h = (Ok a, h1) -> k1 a h1 = k2 a h1) ->
  bind m k1 h = bind m k2 h.
Proof.
  intros Hk. unfold bind. destruct (m h) as [[a|e] h1]; [|done]. by apply Hk.
Qed.

(** [make_private], stage by stage. *)
Lemma make_private_steps (self module optim data_loader : loc) sigma C bf lr
    (h : heap F) r h' :
  make_private self module optim data_loader sigma C bf lr h = (r, h') ->
  exists r1 h1,
    _prepare_model self module bf lr h = (r1, h1) /\
    match r1 with
    | Raise e => r = Raise e /\ h' = h1
    | Ok m' =>
        exists r2 h2,
          _prepare_data_loader self data_loader h1 = (r2, h2) /\
          match r2 with
          | Raise e => r = Raise e /\ h' = h2
          | Ok d' =>
              match get_data_loader d' h2 with
              | (Raise e, _) => r = Raise e /\ h' = h2
              | (Ok d, _) =>
                  if batches d =? 0 then r = Raise ZeroDivisionError /\ h' = h2
                  else
                    match _prepare_optimizer self optim sigma C
                            (to_int (fmul (of_int (dataset_size d))
                                          (truediv 1 (batches d)))) lr h2 with
                    | (Raise e, _) => r = Raise e /\ h' = h2
                    | (Ok o', h3) =>
                        exists g o,
                          h2 !! m' = Some (a_GradSampleModule g) /\
                          h3 = h2 ++ [a_DPOptimizer o] /\
                          o' = length h2 /\
                          r = Ok (m', o', d') /\
                          h' = <[m' := a_GradSampleModule
                                         (with_forward_pre_hook g
                                            (partial_virtual_step_hook o'))]>
                                 (h2 ++ [a_DPOptimizer
                                           (with_step_hook o
                                              (accountant_hook_closure self
                                                 (truediv 1 (batches d))))])
                    end
              end
          end
    end.
Proof.
  unfold make_private. intros H.
  destruct (_prepare_model self module bf lr h) as [r1 h1] eqn:Hm.
  exists r1, h1. split; [done|].
  destruct r1 as [m'|e].
  2:{ rewrite (bind_raise _ _ _ _ _ Hm) in H. by simplify_eq. }
  rewrite (bind_ok _ _ _ _ _ Hm) in H.
  destruct (_prepare_data_loader self data_loader h1) as [r2 h2] eqn:Hd.
  exists r2, h2. split; [done|].
  destruct r2 as [d'|e].
  2:{ rewrite (bind_raise _ _ _ _ _ Hd) in H. by simplify_eq. }
  rewrite (bind_ok _ _ _ _ _ Hd) in H.
  destruct (get_data_loader d' h2) as [rd hd] eqn:Hg.
  pose proof (get_data_loader_inv _ _ _ _ Hg) as [-> _].
  destruct rd as [d|e].
  2:{ unfold len in H. rewrite (bind_raise _ _ _ _ _ (bind_raise _ _ _ _ _ Hg)) in H.
      by simplify_eq. }
  unfold len, len_dataset in H.
  rewrite (bind_ok _ _ _ _ _ (bind_ok _ _ _ _ _ Hg)) in H.
  unfold py_truediv in H.
  destruct (batches d =? 0) eqn:Hz.
  { unfold ret at 1, bind at 1, raise in H. by simplify_eq. }
  unfold ret at 1 2 in H. unfold bind at 1 in H.
  rewrite (bind_ok _ _ _ _ _ (bind_ok _ _ _ _ _ Hg)) in H. unfold ret at 1 in H.
  destruct (_prepare_optimizer self optim sigma C _ lr h2) as [ro h3] eqn:Ho.
  pose proof (_prepare_optimizer_inv _ _ _ _ _ _ _ _ _ Ho) as Hi.
  destruct ro as [o'|e].
  2:{ rewrite (bind_raise _ _ _ _ _ Ho) in H. destruct Hi as [_ ->]. by simplify_eq. }
  rewrite (bind_ok _ _ _ _ _ Ho) in H.
  destruct Hi as (-> & inner & ps & _ & ->).
  pose proof (_prepare_model_inv _ _ _ _ _ _ _ Hm) as Hmi.
  pose proof (_prepare_data_loader_inv _ _ _ _ _ Hd) as [_ Hdi].
  assert (Hp2 : h1 `prefix_of` h2).
  { destruct Hdi as [[_ ->] | (? & _ & _ & ->)]; [done|by apply prefix_app_r]. }
  assert (Hg' : exists g, h2 !! m' = Some (a_GradSampleModule g)).
  { destruct Hmi as [(g & Hg' & -> & ->) | (ps0 & Hg' & -> & ->)].
    - exists g. eapply prefix_lookup_Some; eauto.
    - eexists. eapply prefix_lookup_Some; [|exact Hp2].
      by apply list_lookup_middle. }
  destruct Hg' as (g & Hg').
  erewrite (bind_ok (attach_step_hook _ _)) in H
    by (apply attach_step_hook_ok; by apply list_lookup_middle).
  rewrite insert_app_r_alt in H by done. rewrite Nat.sub_diag in H.
  cbn [insert list_insert] in H.
  erewrite (bind_ok (register_forward_pre_hook _ _)) in H.
  2:{ apply register_forward_pre_hook_ok. rewrite lookup_app_l; [exact Hg'|].
      eapply lookup_lt_Some; eauto. }
  unfold ret in H. injection H as <- <-.
  eexists g, _. repeat split; done.
Qed.

Lemma _prepare_model_grows (self module : loc) bf lr (h : heap F) r h1 :
  _prepare_model self module bf lr h = (r, h1) ->
  h1 = h \/ exists g, h1 = h ++ [a_GradSampleModule g].
Proof.
  intros H. apply _prepare_model_inv in H. destruct r as [m'|e].
  - destruct H as [(g & _ & _ & ->) | (ps & _ & _ & ->)]; eauto.
  - left. tauto.
Qed.

Lemma _prepare_data_loader_grows (self data_loader : loc) (h : heap F) r h1 :
  _prepare_data_loader self data_loader h = (r, h1) ->
  h1 = h \/ exists d, h1 = h ++ [a_DPDataLoader d].
Proof.
  intros H. apply _prepare_data_loader_inv in H. destruct r as [d'|e].
  - destruct H as [_ [[_ ->] | (d & _ & _ & ->)]]; eauto.
  - left. tauto.
Qed.

(** The heap [make_private] leaves, whatever the outcome: up to two new
    wrappers at the end of the heap and, when it returns, the new optimizer
    after them and the hook on the model wrapper. *)
Lemma make_private_heap (self module optim data_loader : loc) sigma C bf lr
    (h : heap F) r h' :
  make_private self module optim data_loader sigma C bf lr h = (r, h') ->
  exists h1 h2,
    (h1 = h \/ exists g, h1 = h ++ [a_GradSampleModule g]) /\
    (h2 = h1 \/ exists d, h2 = h1 ++ [a_DPDataLoader d]) /\
    match r with
    | Raise _ => h' = h2
    | Ok (m', o', d') =>
        exists g o,
          h2 !! m' = Some (a_GradSampleModule g) /\
          o' = length h2 /\
          h' = <[m' := a_GradSampleModule
                         (with_forward_pre_hook g (partial_virtual_step_hook o'))]>
                 (h2 ++ [a_DPOptimizer o])
    end.
Proof.
  intros H. apply make_private_steps in H as (r1 & h1 & Hm & H).
  pose proof (_prepare_model_grows _ _ _ _ _ _ _ Hm) as G1.
  destruct r1 as [m'|e].
  2:{ destruct H as [-> ->]. exists h1, h1. eauto. }
  destruct H as (r2 & h2 & Hd & H).
  pose proof (_prepare_data_loader_grows _ _ _ _ _ Hd) as G2.
  exists h1, h2. split; [done|]. split; [done|].
  destruct r2 as [d'|e]; [|by destruct H as [-> ->]].
  destruct (get_data_loader d' h2) as [[d|e] hd]; [|by destruct H as [-> ->]].
  destruct (batches d =? 0); [by destruct H as [-> ->]|].
  destruct (_prepare_optimizer self optim sigma C _ lr h2) as [[o'|e] h3];
    [|by destruct H as [-> ->]].
  destruct H as (g & o & Hg & _ & -> & -> & ->). eauto.
Qed.

Lemma make_private_ok_inv (self module optim data_loader : loc) sigma C bf lr
    (h : heap F) m' o' d' h' :
  make_private self module optim data_loader sigma C bf lr h
    = (Ok (m', o', d'), h') ->
  exists h1 h2 g d o,
    _prepare_model self module bf lr h = (Ok m', h1) /\
    _prepare_data_loader self data_loader h1 = (Ok d', h2) /\
    get_data_loader d' h2 = (Ok d, h2) /\
    batches d <> 0 /\
    _prepare_optimizer self optim sigma C
      (to_int (fmul (of_int (dataset_size d)) (truediv 1 (batches d)))) lr h2
      = (Ok o', h2 ++ [a_DPOptimizer o]) /\
    o' = length h2 /\
    h2 !! m' = Some (a_GradSampleModule g) /\
    h' = <[m' := a_GradSampleModule
                   (with_forward_pre_hook g (partial_virtual_step_hook o'))]>
           (h2 ++ [a_DPOptimizer
                     (with_step_hook o
                        (accountant_hook_closure self (truediv 1 (batches d))))]).
Proof.
  intros H. apply make_private_steps in H as (r1 & h1 & Hm & H).
  destruct r1 as [m1|e]; [|by destruct H].
  destruct H as (r2 & h2 & Hd & H).
  destruct r2 as [d2|e]; [|by destruct H].
  destruct (get_data_loader d2 h2) as [[d|e] hd] eqn:Hg; [|by destruct H].
  pose proof (get_data_loader_inv _ _ _ _ Hg) as [-> _].
  destruct (Z.eqb_spec (batches d) 0) as [|Hn]; [by destruct H|].
  destruct (_prepare_optimizer self optim sigma C _ lr h2) as [[o2|e] h3] eqn:Ho;
    [|by destruct H].
  destruct H as (g & o & Hg' & -> & -> & Hr & ->).
  injection Hr as -> -> ->.
  exists h1, h2, g, d, o. by repeat split.
Qed.

Lemma _prepare_optimizer_ok_lookup (self optim : loc) sigma C ebs lr
    (h : heap F) o' h' :
  _prepare_optimizer self optim sigma C ebs lr h = (Ok o', h') ->
  (optim < length h)%nat.
Proof.
  unfold _prepare_optimizer, bind, as_DPOptimizer, DPOptimizer_init, bind,
    param_groups. cbn beta.
  destruct (h !! optim) as [x|] eqn:E; [intros _; by eapply lookup_lt_Some|].
  cbn. rewrite E. discriminate.
Qed.

(** X5: when [make_private] raises, every object that existed before the
    call is as it was: no hook has been registered on the model and none
    attached to an optimizer, and the engine is untouched.  At most two
    objects have been created by then (the wrappers of the model and of the
    loader). *)
Theorem make_private_failure_leaves_objects (self module optim data_loader : loc)
    (sigma C : F) (bf : bool) (lr : string) (h : heap F) (e : exn) (h' : heap F) :
  make_private self module optim data_loader sigma C bf lr h = (Raise e, h') ->
  (forall l x, h !! l = Some x -> h' !! l = Some x) /\
  (length h' <= length h + 2)%nat.
Proof.
  intros H. apply make_private_heap in H as (h1 & h2 & G1 & G2 & ->).
  split.
  - intros l x Hl.
    assert (H1 : h1 !! l = Some x).
    { destruct G1 as [-> | [g ->]]; [done|]. by apply lookup_app_l_Some. }
    destruct G2 as [-> | [d ->]]; [done|]. by apply lookup_app_l_Some.
  - destruct G1 as [-> | [g ->]]; destruct G2 as [-> | [d ->]];
      rewrite ?length_app; simpl; lia.
Qed.

(** X6: when [make_private] returns, the optimizer it hands back is an
    object that did not exist before the call (so never the optimizer it
    was given), and the only object of the old heap that has changed is the
    model wrapper handed back: if that existed before, it is the model that
    was passed in.  The optimizer, the loader, the parameters and the
    engine that were passed in are left as they were. *)
Theorem make_private_frame (self module optim data_loader : loc)
    (sigma C : F) (bf : bool) (lr : string) (h : heap F)
    (m' o' d' : loc) (h' : heap F) :
  make_private self module optim data_loader sigma C bf lr h
    = (Ok (m', o', d'), h') ->
  h !! o' = None /\
  o' <> optim /\
  (forall l x, h !! l = Some x -> l <> m' -> h' !! l = Some x) /\
  (forall x, h !! m' = Some x -> m' = module).
Proof.
  intros H.
  pose proof (make_private_ok_inv _ _ _ _ _ _ _ _ _ _ _ _ _ H)
    as (h1 & h2 & g & d & o & Hm & Hd & _ & _ & Ho & -> & Hg & ->).
  pose proof (_prepare_model_grows _ _ _ _ _ _ _ Hm) as G1.
  pose proof (_prepare_data_loader_grows _ _ _ _ _ Hd) as G2.
  assert (L1 : (length h <= length h1)%nat)
    by (destruct G1 as [-> | [? ->]]; rewrite ?length_app; simpl; lia).
  assert (L2 : (length h1 <= length h2)%nat)
    by (destruct G2 as [-> | [? ->]]; rewrite ?length_app; simpl; lia).
  assert (K : forall l x, h !! l = Some x -> h2 !! l = Some x).
  { intros l x Hl.
    assert (H1 : h1 !! l = Some x).
    { destruct G1 as [-> | [? ->]]; [done|]. by apply lookup_app_l_Some. }
    destruct G2 as [-> | [? ->]]; [done|]. by apply lookup_app_l_Some. }
  split; [apply lookup_ge_None_2; lia|].
  split.
  { apply _prepare_optimizer_ok_lookup in Ho. lia. }
  split.
  - intros l x Hl Hne. rewrite list_lookup_insert_ne by done.
    apply lookup_app_l_Some. by apply K.
  - intros x Hx. apply _prepare_model_inv in Hm.
    destruct Hm as [(? & _ & -> & _) | (? & _ & -> & _)]; [done|].
    apply lookup_lt_Some in Hx. lia.
Qed.

(** X7: [make_private] adds its pre-forward hook after the hooks the model
    wrapper already has and removes none.  A model that is already wrapped
    is handed back itself with one more hook, so wrapping the same model
    again leaves the hook of the earlier optimizer in place, in front of
    the new one; a plain model gets a new wrapper whose only hook is the
    new one. *)
Theorem make_private_keeps_earlier_hooks (self module optim data_loader : loc)
    (sigma C : F) (bf : bool) (lr : string) (h : heap F)
    (m' o' d' : loc) (h' : heap F) :
  make_private self module optim data_loader sigma C bf lr h
    = (Ok (m', o', d'), h') ->
  exists g',
    h' !! m' = Some (a_GradSampleModule g') /\
    forward_pre_hooks g' =
      match h !! module with
      | Some (a_GradSampleModule g) => forward_pre_hooks g
      | _ => []
      end ++ [partial_virtual_step_hook o'] /\
    (forall g, h !! module = Some (a_GradSampleModule g) -> m' = module).
Proof.
  intros H.
  pose proof (make_private_ok_inv _ _ _ _ _ _ _ _ _ _ _ _ _ H)
    as (h1 & h2 & g & d & o & Hm & Hd & _ & _ & _ & -> & Hg & ->).
  pose proof (_prepare_data_loader_grows _ _ _ _ _ Hd) as G2.
  assert (Lm : (m' < length h2)%nat) by (by eapply lookup_lt_Some).
  eexists. split.
  { apply list_lookup_insert_eq. rewrite length_app. lia. }
  apply _prepare_model_inv in Hm.
  assert (K : forall x, h1 !! m' = Some x -> h2 !! m' = Some x).
  { intros x Hx. destruct G2 as [-> | [? ->]]; [done|]. by apply lookup_app_l_Some. }
  destruct Hm as [(g0 & Hg0 & -> & ->) | (ps & Hps & -> & ->)].
  - rewrite Hg0. apply K in Hg0. rewrite Hg0 in Hg. injection Hg as <-.
    split; [done|]. by intros.
  - rewrite Hps. split; [|intros; congruence].
    assert (Hx : (h ++ [a_GradSampleModule
                          {| _module := module; batch_first := bf;
                             gsm_loss_reduction := lr; gsm_parameters := ps;
                             forward_pre_hooks := [] |}]) !! length h
                 = Some (a_GradSampleModule
                           {| _module := module; batch_first := bf;
                              gsm_loss_reduction := lr; gsm_parameters := ps;
                              forward_pre_hooks := [] |}))
      by (by apply list_lookup_middle).
    apply K in Hx. rewrite Hx in Hg. by injection Hg as <-.
Qed.

Lemma get_accountant_alloc (s : loc) (h : heap F) (x : obj F) :
  (forall e, x <> a_PrivacyEngine e) ->
  fst (get_accountant s (h ++ [x])) = fst (get_accountant s h).
Proof.
  intros Hx. unfold get_accountant.
  destruct (decide (s < length h)%nat) as [Hlt|Hge].
  - rewrite lookup_app_l by done. by destruct (h !! s) as [[]|].
  - rewrite lookup_app_r by lia. rewrite (lookup_ge_None_2 h s) by lia.
    destruct (s - length h)%nat; simpl; [|done].
    destruct x as [| | | | | | |ex]; try done. by destruct (Hx ex).
Qed.

Lemma get_accountant_set (s l : loc) (h : heap F) (x y : obj F) :
  h !! l = Some y ->
  (forall e, y <> a_PrivacyEngine e) ->
  (forall e, x <> a_PrivacyEngine e) ->
  fst (get_accountant s (<[l := x]> h)) = fst (get_accountant s h).
Proof.
  intros Hl Hy Hx. unfold get_accountant.
  destruct (decide (s = l)) as [->|Hne].
  - rewrite list_lookup_insert_eq by (by eapply lookup_lt_Some). rewrite Hl.
    destruct x as [| | | | | | |ex]; try (destruct y as [| | | | | | |ey]; try done; by destruct (Hy ey)).
    by destruct (Hx ex).
  - rewrite list_lookup_insert_ne by done. by destruct (h !! s) as [[]|].
Qed.

Lemma get_epsilon_accountant (s : loc) (delta : F) (al : option (list F))
    (h h' : heap F) :
  fst (get_accountant s h') = fst (get_accountant s h) ->
  fst (get_epsilon s delta al h') = fst (get_epsilon s delta al h).
Proof.
  unfold get_epsilon, bind.
  destruct (get_accountant s h') as [r' k'], (get_accountant s h) as [r k].
  simpl. intros ->. destruct r as [a|]; [|done].
  unfold lift. by destruct (RDPAccountant_get_privacy_spent a delta).
Qed.

(** X8: wrapping spends nothing.  Whatever [make_private] does (return or
    raise), [get_epsilon] of every engine gives after the call what it gave
    before: no ledger is touched by the wrapping, only by the optimizer
    steps that follow. *)
Theorem make_private_leaves_ledgers (self module optim data_loader : loc)
    (sigma C : F) (bf : bool) (lr : string) (h : heap F)
    (engine : loc) (delta : F) (alphas : option (list F)) :
  fst (get_epsilon engine delta alphas
         (snd (make_private self module optim data_loader sigma C bf lr h)))
  = fst (get_epsilon engine delta alphas h).
Proof.
  destruct (make_private self module optim data_loader sigma C bf lr h)
    as [r h'] eqn:H.
  apply make_private_heap in H as (h1 & h2 & G1 & G2 & H). simpl.
  apply get_epsilon_accountant.
  assert (E1 : fst (get_accountant engine h1) = fst (get_accountant engine h)).
  { destruct G1 as [-> | [g ->]]; [done|]. by apply get_accountant_alloc. }
  assert (E2 : fst (get_accountant engine h2) = fst (get_accountant engine h)).
  { rewrite <- E1. destruct G2 as [-> | [d ->]]; [done|].
    by apply get_accountant_alloc. }
  destruct r as [[[m' o'] d']|e]; [|by subst h'].
  destruct H as (g & o & Hg & -> & ->). rewrite <- E2.
  rewrite (get_accountant_set engine m' _ _ (a_GradSampleModule g)); try done.
  - by apply get_accountant_alloc.
  - by apply lookup_app_l_Some.
Qed.

End Effects.

(** ** Edge cases of the wrapping *)

Section Edge_cases.
Context {F : Type} {float_ops : PyFloat F}.

(** X9: an empty loader is found out late.  On a plain model and a plain
    loader whose wrapper yields no batch, [make_private] raises
    [ZeroDivisionError] at [1 / len(data_loader)], after it has created the
    wrappers of the model and of the loader: both stay behind in the heap,
    the model wrapper without a hook.  The optimizer has not been looked at
    by then. *)
Theorem make_private_empty_loader {wrapper : DataLoaderWrapper}
    (self module optim data_loader : loc)
    (sigma C : F) (bf : bool) (lr : string) (h : heap F)
    (e : PrivacyEngine F) (ps : list loc) (d : DataLoader) :
  h !! self = Some (a_PrivacyEngine e) ->
  cls e = PrivacyEngine_cls ->
  h !! module = Some (a_Module ps) ->
  h !! data_loader = Some (a_DataLoader d) ->
  batches (from_data_loader d) = 0 ->
  make_private self module optim data_loader sigma C bf lr h =
    (Raise ZeroDivisionError,
     h ++ [ a_GradSampleModule
              {| _module := module; batch_first := bf;
                 gsm_loss_reduction := lr; gsm_parameters := ps;
                 forward_pre_hooks := [] |};
            a_DPDataLoader (from_data_loader d) ]).
Proof.
  intros He Hc Hm Hd Hn.
  assert (Ld : (data_loader < length h)%nat) by (eapply lookup_lt_Some; eauto).
  assert (Ls : (self < length h)%nat) by (eapply lookup_lt_Some; eauto).
  set (g := {| _module := module; batch_first := bf; gsm_loss_reduction := lr;
               gsm_parameters := ps; forward_pre_hooks := [] |}).
  set (h1 := h ++ [a_GradSampleModule g]).
  set (h2 := h1 ++ [a_DPDataLoader (from_data_loader d)]).
  assert (E1 : _prepare_model self module bf lr h = (Ok (length h), h1)).
  { unfold _prepare_model, bind at 1, as_GradSampleModule. rewrite Hm.
    unfold GradSampleModule_init, bind, parameters, alloc. by rewrite Hm. }
  assert (He1 : h1 !! self = Some (a_PrivacyEngine e))
    by (unfold h1; by rewrite lookup_app_l).
  assert (Hd1 : h1 !! data_loader = Some (a_DataLoader d))
    by (unfold h1; by rewrite lookup_app_l).
  assert (E2 : _prepare_data_loader self data_loader h1 = (Ok (length h1), h2)).
  { unfold _prepare_data_loader, bind at 1, get_cls. rewrite He1, Hc.
    unfold PrivacyEngine_prepare_data_loader, bind at 1, as_DPDataLoader.
    rewrite Hd1. unfold bind, get_data_loader, alloc. by rewrite Hd1. }
  assert (E3 : get_data_loader (length h1) h2 = (Ok (from_data_loader d), h2)).
  { unfold get_data_loader. unfold h2 at 1.
    by rewrite (list_lookup_middle h1 [] _ (length h1)). }
  unfold make_private.
  rewrite (bind_ok _ _ _ _ _ E1), (bind_ok _ _ _ _ _ E2).
  unfold len.
  rewrite (bind_ok _ _ _ _ _ (bind_ok _ _ _ _ _ E3)).
  unfold py_truediv. rewrite Hn. simpl.
  unfold ret at 1, bind at 1, raise. subst h2 h1. by rewrite <- app_assoc.
Qed.

(** X10: the engine variant that keeps the data loader never calls
    [DPDataLoader.from_data_loader]: [make_private] gives the same result
    whatever that wrapper would do, and the loader it hands back is the
    one it was given. *)
Theorem make_private_unsafe_keeps_loader (w1 w2 : DataLoaderWrapper)
    (self module optim data_loader : loc)
    (sigma C : F) (bf : bool) (lr : string) (h : heap F) (e : PrivacyEngine F) :
  h !! self = Some (a_PrivacyEngine e) ->
  cls e = PrivacyEngineUnsafeKeepDataLoader_cls ->
  make_private (wrapper := w1) self module optim data_loader sigma C bf lr h
  = make_private (wrapper := w2) self module optim data_loader sigma C bf lr h
  /\ forall m' o' d' h',
       make_private (wrapper := w1) self module optim data_loader sigma C bf lr h
         = (Ok (m', o', d'), h') ->
       d' = data_loader.
Proof.
  intros He Hc.
  assert (K : forall r1 h1, _prepare_model self module bf lr h = (r1, h1) ->
                h1 !! self = Some (a_PrivacyEngine e)).
  { intros r1 h1 Hm. apply _prepare_model_grows in Hm as [-> | [g ->]]; [done|].
    by apply lookup_app_l_Some. }
  split.
  - unfold make_private. apply bind_congr. intros m' h1 Hm.
    pose proof (K _ _ Hm) as He1.
    rewrite (bind_ok _ _ _ _ _
               (_prepare_data_loader_unsafe (wrapper := w1) self data_loader h1 e He1 Hc)).
    by rewrite (bind_ok _ _ _ _ _
               (_prepare_data_loader_unsafe (wrapper := w2) self data_loader h1 e He1 Hc)).
  - intros m' o' d' h' H.
    apply make_private_ok_inv in H as (h1 & h2 & ? & ? & ? & Hm & Hd & _).
    rewrite (_prepare_data_loader_unsafe (wrapper := w1) self data_loader h1 e
               (K _ _ Hm) Hc) in Hd.
    congruence.
Qed.

Lemma _prepare_data_loader_cases {wrapper : DataLoaderWrapper}
    (self data_loader : loc) (h : heap F) d' h1 :
  _prepare_data_loader self data_loader h = (Ok d', h1) ->
  exists e,
    h !! self = Some (a_PrivacyEngine e) /\
    ((cls e = PrivacyEngineUnsafeKeepDataLoader_cls /\ d' = data_loader /\ h1 = h)
     \/ (exists d, h !! data_loader = Some (a_DPDataLoader d) /\
                   d' = data_loader /\ h1 = h)
     \/ (exists d, h !! data_loader = Some (a_DataLoader d) /\
                   d' = length h /\
                   h1 = h ++ [a_DPDataLoader (from_data_loader d)])).
Proof.
  unfold _prepare_data_loader, bind, get_cls. cbn beta.
  destruct (h !! self) as [[| | | | | | |e]|] eqn:E; cbn; try discriminate.
  intros H. exists e. split; [done|]. revert H.
  destruct (cls e).
  - unfold PrivacyEngine_prepare_data_loader, bind, as_DPDataLoader,
      get_data_loader, alloc, ret. cbn beta.
    destruct (h !! data_loader) as [[]|] eqn:E'; cbn; rewrite ?E';
      intros ?; simplify_eq/=; eauto 8.
  - unfold PrivacyEngineUnsafeKeepDataLoader_prepare_data_loader, ret.
    intros ?; simplify_eq/=; eauto 8.
Qed.

(** X11: preparing twice is preparing once, for the model and for the
    loader: [_prepare_model] and [_prepare_data_loader] hand their own
    result back unchanged and create nothing, whatever [batch_first] and
    [loss_reduction] the second call is given. *)
Theorem prepare_is_idempotent {wrapper : DataLoaderWrapper}
    (self module data_loader : loc) (bf bf' : bool) (lr lr' : string)
    (h : heap F) :
  (forall m' h1,
      _prepare_model self module bf lr h = (Ok m', h1) ->
      _prepare_model self m' bf' lr' h1 = (Ok m', h1)) /\
  (forall d' h1,
      _prepare_data_loader self data_loader h = (Ok d', h1) ->
      _prepare_data_loader self d' h1 = (Ok d', h1)).
Proof.
  split.
  - intros m' h1 Hm. apply _prepare_model_inv in Hm.
    destruct Hm as [(g & Hg & -> & ->) | (ps & _ & -> & ->)].
    + by eapply _prepare_model_wrapped.
    + eapply _prepare_model_wrapped. by apply list_lookup_middle.
  - intros d' h1 H.
    apply _prepare_data_loader_cases in H
      as (e & He & [(Hc & -> & ->) | [(d & Hd & -> & ->) | (d & Hd & -> & ->)]]).
    + by apply (_prepare_data_loader_unsafe self _ _ e).
    + by apply (_prepare_data_loader_wrapped self _ _ e d).
    + apply (_prepare_data_loader_wrapped self _ _ e (from_data_loader d)).
      * by apply lookup_app_l_Some.
      * by apply list_lookup_middle.
Qed.

(** X12: wrapping an optimizer again never stacks the wrappers the engine
    makes.  The [DPOptimizer] that [_prepare_optimizer] returns, given back
    to [_prepare_optimizer], always yields a further new [DPOptimizer]
    around the same inner optimizer and the same parameters, holding the
    values of the second call; the first wrapper stays in the heap as it
    was. *)
Theorem prepare_optimizer_twice (self optim : loc)
    (sigma C : F) (ebs : Z) (lr : string)
    (sigma' C' : F) (ebs' : Z) (lr' : string)
    (h : heap F) (o1 : loc) (h1 : heap F) :
  _prepare_optimizer self optim sigma C ebs lr h = (Ok o1, h1) ->
  exists inner ps,
    h1 !! o1 = Some (a_DPOptimizer
                       {| optimizer := inner; params := ps;
                          noise_multiplier := sigma; max_grad_norm := C;
                          expected_batch_size := ebs; loss_reduction := lr;
                          accumulated_iterations := 0; step_hooks := [] |}) /\
    _prepare_optimizer self o1 sigma' C' ebs' lr' h1 =
      (Ok (S o1),
       h1 ++ [a_DPOptimizer
                {| optimizer := inner; params := ps;
                   noise_multiplier := sigma'; max_grad_norm := C';
                   expected_batch_size := ebs'; loss_reduction := lr';
                   accumulated_iterations := 0; step_hooks := [] |}]).
Proof.
  unfold _prepare_optimizer at 1. unfold bind at 1, as_DPOptimizer.
  intros H.
  assert (exists inner ps,
             param_groups inner h = (Ok ps, h) /\ o1 = length h /\
             h1 = h ++ [a_DPOptimizer
                          {| optimizer := inner; params := ps;
                             noise_multiplier := sigma; max_grad_norm := C;
                             expected_batch_size := ebs; loss_reduction := lr;
                             accumulated_iterations := 0; step_hooks := [] |}])
    as (inner & ps & Hps & -> & ->).
  { set (inner := match h !! optim with
                  | Some (a_DPOptimizer o) => wrapped_optimizer o
                  | _ => optim end).
    assert (Hi : DPOptimizer_init inner sigma C ebs lr h = (Ok o1, h1))
      by (unfold inner; destruct (h !! optim) as [[]|]; exact H).
    unfold DPOptimizer_init in Hi.
    apply bind_inv in Hi as [(ps & h0 & Hps & Hi) | (? & _ & ?)]; [|done].
    assert (h0 = h) as ->
      by (unfold param_groups in Hps; destruct (h !! inner) as [[]|]; congruence).
    unfold alloc in Hi. simplify_eq. eauto. }
  exists inner, ps. split; [by apply list_lookup_middle|].
  set (o := {| optimizer := inner; params := ps;
               noise_multiplier := sigma; max_grad_norm := C;
               expected_batch_size := ebs; loss_reduction := lr;
               accumulated_iterations := 0; step_hooks := [] |}).
  assert (Hps' : param_groups (optimizer o) (h ++ [a_DPOptimizer o])
                 = (Ok ps, h ++ [a_DPOptimizer o])).
  { cbn [optimizer o]. unfold param_groups in *.
    destruct (h !! inner) as [x|] eqn:Hx; [|discriminate].
    rewrite (lookup_app_l_Some _ _ _ _ Hx).
    destruct x; simplify_eq; done. }
  rewrite (_prepare_optimizer_wrapped self (length h) sigma' C' ebs' lr'
             (h ++ [a_DPOptimizer o]) o ps
             (list_lookup_middle h [] _ _ eq_refl) Hps').
  rewrite length_app. simpl. do 2 f_equal. lia.
Qed.

End Edge_cases.

(** ** What the wrappers handed back hold *)

Section Results.
Context {F : Type} {float_ops : PyFloat F} {wrapper : DataLoaderWrapper}
  {calibrator : Calibrator F}.

(** The objects [make_private] hands back, in the heap it leaves. *)
Lemma make_private_handed_back (self module optim data_loader : loc)
    sigma C bf lr (h : heap F) m' o' d' h' :
  make_private self module optim data_loader sigma C bf lr h
    = (Ok (m', o', d'), h') ->
  exists h1 h2 g d inner ps,
    _prepare_model self module bf lr h = (Ok m', h1) /\
    _prepare_data_loader self data_loader h1 = (Ok d', h2) /\
    h2 !! m' = Some (a_GradSampleModule g) /\
    h' !! m' = Some (a_GradSampleModule
                       (with_forward_pre_hook g (partial_virtual_step_hook o'))) /\
    h' !! o' = Some (a_DPOptimizer (wrapped_by self inner ps sigma C lr d)) /\
    get_data_loader d' h2 = (Ok d, h2) /\
    h' !! d' = h2 !! d' /\
    m' <> o' /\ m' <> d' /\ o' <> d'.
Proof.
  intros H.
  apply make_private_ok_inv in H
    as (h1 & h2 & g & d & o & Hm & Hd & Hg & Hn & Ho & -> & Hgm & ->).
  apply _prepare_optimizer_inv in Ho as (_ & inner & ps & _ & Ho).
  apply app_inj_tail in Ho as [_ Ho]. injection Ho as ->.
  assert (Lm : (m' < length h2)%nat) by (by eapply lookup_lt_Some).
  pose proof (get_data_loader_inv _ _ _ _ Hg) as [_ Hdl].
  assert (Ld : (d' < length h2)%nat)
    by (destruct Hdl as [Hdl|Hdl]; by eapply lookup_lt_Some).
  assert (Hne : m' <> d') by (destruct Hdl; congruence).
  exists h1, h2, g, d, inner, ps. repeat split; try done; try lia.
  - apply list_lookup_insert_eq. rewrite length_app. lia.
  - rewrite list_lookup_insert_ne by lia. by apply list_lookup_middle.
  - rewrite list_lookup_insert_ne by done. by rewrite lookup_app_l.
Qed.

(** X13: what the standard engine hands back.  When [make_private] of a
    [PrivacyEngine] returns, the three references are three different
    objects: a [GradSampleModule], a [DPOptimizer] on which nothing is
    accumulated yet, and a [DPDataLoader] (never the plain loader: the
    subclass that keeps the loader is the only way to train on it). *)
Theorem make_private_hands_back_wrappers (self module optim data_loader : loc)
    (sigma C : F) (bf : bool) (lr : string) (h : heap F)
    (e : PrivacyEngine F) (m' o' d' : loc) (h' : heap F) :
  h !! self = Some (a_PrivacyEngine e) ->
  cls e = PrivacyEngine_cls ->
  make_private self module optim data_loader sigma C bf lr h
    = (Ok (m', o', d'), h') ->
  exists g o d,
    h' !! m' = Some (a_GradSampleModule g) /\
    h' !! o' = Some (a_DPOptimizer o) /\
    accumulated_iterations o = 0 /\
    h' !! d' = Some (a_DPDataLoader d) /\
    m' <> o' /\ m' <> d' /\ o' <> d'.
Proof.
  intros He Hc H.
  apply make_private_handed_back in H
    as (h1 & h2 & g & d & inner & ps & Hm & Hd & _ & Hm' & Ho' & _ & Hd' & N).
  assert (He1 : h1 !! self = Some (a_PrivacyEngine e)).
  { apply _prepare_model_grows in Hm as [-> | [? ->]]; [done|].
    by apply lookup_app_l_Some. }
  apply _prepare_data_loader_cases in Hd as (e' & He' & Hd).
  rewrite He1 in He'. injection He' as <-.
  assert (exists d2, h2 !! d' = Some (a_DPDataLoader d2)) as [d2 Hd2].
  { destruct Hd as [(Hc' & _) | [(d2 & Hd2 & -> & ->) | (d2 & _ & -> & ->)]].
    - congruence.
    - eauto.
    - eexists. by apply list_lookup_middle. }
  eexists _, _, d2. rewrite Hd', Hd2. repeat split; try done; tauto.
Qed.

(** X14: for a model that is already wrapped, [batch_first] is not used at
    all, and [loss_reduction] reaches only the new optimizer: the model
    wrapper handed back keeps the [batch_first] and the [loss_reduction] it
    was created with, whatever the call is given. *)
Theorem make_private_wrapped_model_keeps_settings
    (self module optim data_loader : loc)
    (sigma C : F) (bf bf' : bool) (lr : string) (h : heap F)
    (g : GradSampleModule) (m' o' d' : loc) (h' : heap F) :
  h !! module = Some (a_GradSampleModule g) ->
  make_private self module optim data_loader sigma C bf lr h
    = (Ok (m', o', d'), h') ->
  make_private self module optim data_loader sigma C bf' lr h
    = (Ok (m', o', d'), h') /\
  exists g' o,
    h' !! m' = Some (a_GradSampleModule g') /\
    batch_first g' = batch_first g /\
    gsm_loss_reduction g' = gsm_loss_reduction g /\
    h' !! o' = Some (a_DPOptimizer o) /\
    loss_reduction o = lr.
Proof.
  intros Hg H. split.
  - rewrite <- H. unfold make_private.
    by rewrite !(bind_ok _ _ _ _ _ (_prepare_model_wrapped self module _ _ h g Hg)).
  - apply make_private_handed_back in H
      as (h1 & h2 & g0 & d & inner & ps & Hm & Hd & Hg0 & Hm' & Ho' & _).
    rewrite (_prepare_model_wrapped self module _ _ h g Hg) in Hm.
    injection Hm as <- <-.
    assert (g0 = g) as ->.
    { apply _prepare_data_loader_grows in Hd as [-> | [? ->]].
      - congruence.
      - rewrite (lookup_app_l_Some _ _ _ _ Hg) in Hg0. congruence. }
    eexists _, _. split; [exact Hm'|]. split; [done|]. split; [done|].
    split; [exact Ho'|]. done.
Qed.

(** X15: [make_private_with_epsilon] reads the number of batches twice,
    from two objects.  The noise is calibrated for
    [sample_rate = 1 / len(data_loader)] of the loader that is passed in;
    the optimizer handed back holds that noise multiplier, and its
    accountant hook charges [1 / len(d')] of the loader [d'] that is handed
    back, which is the loader passed in (when that is already a
    [DPDataLoader], or the engine keeps the loader) or else its new
    [DPDataLoader] wrapper. *)
Theorem make_private_with_epsilon_sample_rates
    (self module optim data_loader : loc) (target_epsilon target_delta : F)
    (epochs : Z) (max_grad_norm : F) (batch_first : bool)
    (loss_reduction : string) (alphas : option (list F))
    (sigma_min sigma_max : option F) (h : heap F)
    (m' o' d' : loc) (h' : heap F) :
  make_private_with_epsilon self module optim data_loader target_epsilon
    target_delta epochs max_grad_norm batch_first loss_reduction alphas
    sigma_min sigma_max h = (Ok (m', o', d'), h') ->
  exists d0 d o,
    get_data_loader data_loader h = (Ok d0, h) /\
    get_data_loader d' h' = (Ok d, h') /\
    h' !! o' = Some (a_DPOptimizer o) /\
    get_noise_multiplier
      {| target_epsilon := target_epsilon; target_delta := target_delta;
         sample_rate := truediv 1 (batches d0); epochs := epochs;
         alphas := alphas; sigma_min := sigma_min; sigma_max := sigma_max |}
      = Ok (noise_multiplier o) /\
    step_hooks o = [accountant_hook_closure self (truediv 1 (batches d))] /\
    ((d' = data_loader /\ d = d0) \/
     (d' <> data_loader /\ d = from_data_loader d0)).
Proof.
  unfold make_private_with_epsilon, len. intros H.
  apply bind_inv in H as [(n & h0 & Hn & H) | (? & _ & ?)]; [|done].
  apply bind_inv in Hn as [(d0 & h0' & Hd0 & Hr) | (? & _ & ?)]; [|done].
  pose proof (get_data_loader_inv _ _ _ _ Hd0) as [-> Hl0].
  unfold ret in Hr. injection Hr as <- <-.
  unfold py_truediv in H.
  destruct (batches d0 =? 0); [unfold bind, raise in H; discriminate H|].
  unfold bind at 1, ret at 1 in H. unfold bind at 1, lift in H.
  destruct (get_noise_multiplier _) as [sigma|] eqn:Hs; [|discriminate H].
  apply make_private_handed_back in H
    as (h1 & h2 & g & d & inner & ps & Hm & Hd & _ & _ & Ho' & Hgd & Hd' & _).
  exists d0, d, (wrapped_by self inner ps sigma max_grad_norm loss_reduction d).
  split; [done|]. split.
  { unfold get_data_loader in *. rewrite Hd'. destruct (h2 !! d') as [[]|]; congruence. }
  split; [done|]. split; [done|]. split; [done|].
  assert (Hl1 : h1 !! data_loader = h !! data_loader).
  { apply _prepare_model_grows in Hm as [-> | [? ->]]; [done|].
    destruct Hl0 as [Hl0|Hl0]; by rewrite (lookup_app_l_Some _ _ _ _ Hl0). }
  apply _prepare_data_loader_cases in Hd as (e & _ & Hd).
  assert (Same : d' = data_loader -> h2 = h1 -> d = d0).
  { intros -> ->. unfold get_data_loader in Hgd. rewrite Hl1 in Hgd.
    destruct Hl0 as [Hl0|Hl0]; rewrite Hl0 in Hgd; congruence. }
  destruct Hd as [(_ & -> & ->) | [(? & _ & -> & ->) | (d1 & Hd1 & -> & ->)]].
  - left. auto.
  - left. auto.
  - right. split.
    + apply lookup_lt_Some in Hd1. lia.
    + unfold get_data_loader in Hgd.
      rewrite (list_lookup_middle h1 [] _ _ eq_refl) in Hgd.
      rewrite Hl1 in Hd1. destruct Hl0 as [Hl0|Hl0]; congruence.
Qed.

End Results.

(** ** The hooks *)

Section Hooks.
Context {F : Type} {float_ops : PyFloat F}.

(** X16: the pre-forward hook skips frozen parameters.  If every
    trainable parameter of the module has neither a noised gradient nor
    per-example gradients, the hook does nothing at all, whatever the
    parameters with [requires_grad = False] carry: it returns, and the
    model, its parameters and the optimizer are as they were. *)
Theorem virtual_step_hook_does_nothing (module optim : loc) (ps : list loc)
    (Ps : list nnParameter) (h : heap F) :
  parameters module h = (Ok ps, h) ->
  Forall2 (fun p P => h !! p = Some (a_Parameter P)) ps Ps ->
  (forall P, In P Ps -> requires_grad P = true ->
             noisy P = false /\ has_grad_sample P = false) ->
  virtual_step_hook module optim h = (Ok tt, h).
Proof.
  intros Hps HPs Hquiet.
  rewrite (virtual_step_hook_run module optim ps Ps h Hps HPs).
  destruct (find decisive Ps) as [P|] eqn:E; [|done].
  apply find_some in E as [HP Hd]. unfold decisive in Hd.
  apply andb_true_iff in Hd as [Hr Hd].
  destruct (Hquiet P HP Hr) as [Hn Hg]. by rewrite Hn, Hg in Hd.
Qed.

(** X17: the accountant hook touches nothing but the ledger of its engine.
    Whatever it does, every other object (the optimizer it is run on
    included) is as it was and the engine keeps its class and its
    [secure_mode]; when it raises, the ledger is as it was, too. *)
Theorem accountant_hook_touches_only_the_ledger (self : loc) (sample_rate : F)
    (optim : loc) (h : heap F) (r : outcome unit) (h' : heap F) :
  accountant_hook self sample_rate optim h = (r, h') ->
  length h' = length h /\
  (forall l, l <> self -> h' !! l = h !! l) /\
  (forall e, h !! self = Some (a_PrivacyEngine e) ->
     exists a, h' !! self = Some (a_PrivacyEngine
                                    {| cls := cls e; accountant := a;
                                       secure_mode := secure_mode e |})) /\
  (forall x, r = Raise x -> h' = h).
Proof.
  unfold accountant_hook. intros H.
  assert (Keep : forall e, h !! self = Some (a_PrivacyEngine e) ->
            exists a, h !! self = Some (a_PrivacyEngine
                                          {| cls := cls e; accountant := a;
                                             secure_mode := secure_mode e |})).
  { intros e He. exists (accountant e). by destruct e. }
  apply bind_inv in H as [(o & h0 & Ho & H) | (x & Ho & ->)].
  2:{ assert (h' = h) as ->
        by (unfold get_DPOptimizer in Ho; destruct (h !! optim) as [[]|]; congruence).
      done. }
  assert (h0 = h) as ->
    by (unfold get_DPOptimizer in Ho; destruct (h !! optim) as [[]|]; congruence).
  apply bind_inv in H as [(a & h0 & Ha & H) | (x & Ha & ->)].
  2:{ assert (h' = h) as ->
        by (unfold get_accountant in Ha; destruct (h !! self) as [[]|]; congruence).
      done. }
  assert (h0 = h) as ->
    by (unfold get_accountant in Ha; destruct (h !! self) as [[]|]; congruence).
  apply bind_inv in H as [(a' & h0 & Hs & H) | (x & Hs & ->)].
  2:{ unfold lift in Hs. by simplify_eq. }
  unfold lift in Hs. injection Hs as Hs <-.
  unfold set_accountant in H.
  destruct (h !! self) as [[| | | | | | |e]|] eqn:He; try (by simplify_eq).
  injection H as <- <-.
  split; [by rewrite length_insert|].
  split; [intros l Hl; by rewrite list_lookup_insert_ne|].
  split; [|done].
  intros e0 [= <-]. exists a'.
  apply list_lookup_insert_eq. by eapply lookup_lt_Some.
Qed.

End Hooks.

(** ** Instances on the fixture *)

(** X2 on the fixture: the first wrapping creates objects 6, 7 and 8. *)
Lemma make_private_returns_witness :
  let h := Fixture.unwrapped PrivacyEngine_cls in
  make_private Fixture.engine Fixture.model Fixture.sgd Fixture.loader
    Fixture.one Fixture.one true "mean"%string h
  = (Ok (Fixture.dp_model, Fixture.dp_optimizer, Fixture.dp_loader),
     Fixture.wrapped).
Proof.
  intros h.
  apply (make_private_returns (F := Q) Fixture.engine Fixture.model Fixture.sgd
           Fixture.loader Fixture.one Fixture.one true "mean"%string h
           _ _ _ _ eq_refl eq_refl eq_refl eq_refl eq_refl).
  discriminate.
Defined.

(** X9 on the fixture with the empty loader. *)
Lemma make_private_empty_loader_witness :
  make_private Fixture.engine Fixture.model Fixture.sgd Fixture.loader
    Fixture.one Fixture.one true "mean"%string Fixture.empty_loader
  = (Raise ZeroDivisionError,
     Fixture.empty_loader ++
       [ a_GradSampleModule
           {| _module := Fixture.model; batch_first := true;
              gsm_loss_reduction := "mean"%string;
              gsm_parameters := [Fixture.weight; Fixture.bias];
              forward_pre_hooks := [] |};
         a_DPDataLoader {| batches := 0; dataset_size := 0 |} ]).
Proof.
  exact (make_private_empty_loader (F := Q) Fixture.engine Fixture.model
           Fixture.sgd Fixture.loader Fixture.one Fixture.one true
           "mean"%string Fixture.empty_loader _ _ _
           eq_refl eq_refl eq_refl eq_refl eq_refl).
Defined.

(** X5 on the fixture with the empty loader: the six objects are as they
    were. *)
Lemma make_private_failure_leaves_objects_witness :
  let h := Fixture.empty_loader in
  let h' := snd (make_private Fixture.engine Fixture.model Fixture.sgd
                   Fixture.loader Fixture.one Fixture.one true "mean"%string h) in
  (forall l x, h !! l = Some x -> h' !! l = Some x) /\
  (length h' <= length h + 2)%nat.
Proof.
  exact (make_private_failure_leaves_objects (F := Q) Fixture.engine
           Fixture.model Fixture.sgd Fixture.loader Fixture.one Fixture.one true
           "mean"%string Fixture.empty_loader ZeroDivisionError _ eq_refl).
Defined.

(** X6 on the fixture: the first wrapping. *)
Lemma make_private_frame_witness :
  let h := Fixture.unwrapped PrivacyEngine_cls in
  h !! Fixture.dp_optimizer = None /\
  Fixture.dp_optimizer <> Fixture.sgd /\
  (forall l x, h !! l = Some x -> l <> Fixture.dp_model ->
               Fixture.wrapped !! l = Some x) /\
  (forall x, h !! Fixture.dp_model = Some x -> Fixture.dp_model = Fixture.model).
Proof.
  exact (make_private_frame (F := Q) Fixture.engine Fixture.model Fixture.sgd
           Fixture.loader Fixture.one Fixture.one true "mean"%string
           (Fixture.unwrapped PrivacyEngine_cls)
           Fixture.dp_model Fixture.dp_optimizer Fixture.dp_loader
           Fixture.wrapped eq_refl).
Defined.

(** X7 on the wrapped fixture: wrapping the wrapped model again leaves two
    hooks on it, the one of the first optimizer in front. *)
Lemma make_private_keeps_earlier_hooks_witness :
  let h' := snd (make_private Fixture.engine Fixture.dp_model
                   Fixture.dp_optimizer Fixture.dp_loader Fixture.one Fixture.one
                   true "mean"%string Fixture.wrapped) in
  exists g',
    h' !! Fixture.dp_model = Some (a_GradSampleModule g') /\
    forward_pre_hooks g' =
      [partial_virtual_step_hook Fixture.dp_optimizer;
       partial_virtual_step_hook 9%nat].
Proof.
  destruct (make_private_keeps_earlier_hooks (F := Q) Fixture.engine
              Fixture.dp_model Fixture.dp_optimizer Fixture.dp_loader
              Fixture.one Fixture.one true "mean"%string Fixture.wrapped
              Fixture.dp_model 9%nat Fixture.dp_loader _ eq_refl)
    as (g' & Hg & Hh & _).
  exists g'. split; [exact Hg | exact Hh].
Defined.

(** X13 on the fixture. *)
Lemma make_private_hands_back_wrappers_witness :
  exists g o d,
    Fixture.wrapped !! Fixture.dp_model = Some (a_GradSampleModule g) /\
    Fixture.wrapped !! Fixture.dp_optimizer = Some (a_DPOptimizer o) /\
    accumulated_iterations o = 0 /\
    Fixture.wrapped !! Fixture.dp_loader = Some (a_DPDataLoader d) /\
    Fixture.dp_model <> Fixture.dp_optimizer /\
    Fixture.dp_model <> Fixture.dp_loader /\
    Fixture.dp_optimizer <> Fixture.dp_loader.
Proof.
  exact (make_private_hands_back_wrappers (F := Q) Fixture.engine Fixture.model
           Fixture.sgd Fixture.loader Fixture.one Fixture.one true
           "mean"%string (Fixture.unwrapped PrivacyEngine_cls) _
           Fixture.dp_model Fixture.dp_optimizer Fixture.dp_loader
           Fixture.wrapped eq_refl eq_refl eq_refl).
Defined.

(** X14 on the wrapped fixture: the model wrapper was created with
    [batch_first = True] and ["mean"]; wrapping it again with
    [batch_first = False] and ["sum"] changes neither. *)
Lemma make_private_wrapped_model_keeps_settings_witness :
  let h' := snd (make_private Fixture.engine Fixture.dp_model
                   Fixture.dp_optimizer Fixture.dp_loader Fixture.one Fixture.one
                   false "sum"%string Fixture.wrapped) in
  make_private Fixture.engine Fixture.dp_model Fixture.dp_optimizer
    Fixture.dp_loader Fixture.one Fixture.one true "sum"%string Fixture.wrapped
  = (Ok (Fixture.dp_model, 9%nat, Fixture.dp_loader), h') /\
  exists g' o,
    h' !! Fixture.dp_model = Some (a_GradSampleModule g') /\
    batch_first g' = true /\
    gsm_loss_reduction g' = "mean"%string /\
    h' !! 9%nat = Some (a_DPOptimizer o) /\
    loss_reduction o = "sum"%string.
Proof.
  exact (make_private_wrapped_model_keeps_settings (F := Q) Fixture.engine
           Fixture.dp_model Fixture.dp_optimizer Fixture.dp_loader Fixture.one
           Fixture.one false true "sum"%string Fixture.wrapped _
           Fixture.dp_model 9%nat Fixture.dp_loader _ eq_refl eq_refl).
Defined.

(** X10 on the fixture with the engine that keeps the loader, against a
    wrapper that would drop every batch. *)
Lemma make_private_unsafe_keeps_loader_witness :
  let h := Fixture.unwrapped PrivacyEngineUnsafeKeepDataLoader_cls in
  let drop_all : DataLoaderWrapper :=
    {| from_data_loader := fun _ => {| batches := 0; dataset_size := 0 |} |} in
  make_private (wrapper := same_batches) Fixture.engine Fixture.model
    Fixture.sgd Fixture.loader Fixture.one Fixture.one true "mean"%string h
  = make_private (wrapper := drop_all) Fixture.engine Fixture.model
      Fixture.sgd Fixture.loader Fixture.one Fixture.one true "mean"%string h
  /\ forall m' o' d' h',
       make_private (wrapper := same_batches) Fixture.engine Fixture.model
         Fixture.sgd Fixture.loader Fixture.one Fixture.one true
         "mean"%string h = (Ok (m', o', d'), h') ->
       d' = Fixture.loader.
Proof.
  exact (make_private_unsafe_keeps_loader (F := Q) same_batches
           {| from_data_loader := fun _ => {| batches := 0; dataset_size := 0 |} |}
           Fixture.engine Fixture.model Fixture.sgd Fixture.loader Fixture.one
           Fixture.one true "mean"%string
           (Fixture.unwrapped PrivacyEngineUnsafeKeepDataLoader_cls) _
           eq_refl eq_refl).
Defined.

(** X11 on the fixture. *)
Lemma prepare_is_idempotent_witness :
  let h := Fixture.unwrapped PrivacyEngine_cls in
  (forall m' h1,
      _prepare_model Fixture.engine Fixture.model true "mean"%string h
        = (Ok m', h1) ->
      _prepare_model Fixture.engine m' false "sum"%string h1 = (Ok m', h1)) /\
  (forall d' h1,
      _prepare_data_loader Fixture.engine Fixture.loader h = (Ok d', h1) ->
      _prepare_data_loader Fixture.engine d' h1 = (Ok d', h1)).
Proof.
  exact (prepare_is_idempotent (F := Q) Fixture.engine Fixture.model
           Fixture.loader true false "mean"%string "sum"%string
           (Fixture.unwrapped PrivacyEngine_cls)).
Defined.

(** X12 on the wrapped fixture: wrapping the optimizer of the fixture a
    second and a third time gives wrappers 9 and 10 around the plain
    optimizer 4. *)
Lemma prepare_optimizer_twice_witness :
  let two : Q := Qmake 2 1 in
  let h1 := snd (_prepare_optimizer Fixture.engine Fixture.dp_optimizer
                   Fixture.one Fixture.one 2 "mean"%string Fixture.wrapped) in
  exists inner ps,
    h1 !! 9%nat
      = Some (a_DPOptimizer
                {| optimizer := inner; params := ps;
                   noise_multiplier := Fixture.one; max_grad_norm := Fixture.one;
                   expected_batch_size := 2; loss_reduction := "mean"%string;
                   accumulated_iterations := 0; step_hooks := [] |}) /\
    inner = Fixture.sgd /\
    _prepare_optimizer Fixture.engine 9%nat two two 5 "sum"%string h1
    = (Ok 10%nat,
       h1 ++ [a_DPOptimizer
                {| optimizer := inner; params := ps;
                   noise_multiplier := two; max_grad_norm := two;
                   expected_batch_size := 5; loss_reduction := "sum"%string;
                   accumulated_iterations := 0; step_hooks := [] |}]).
Proof.
  intros two h1.
  destruct (prepare_optimizer_twice (F := Q) Fixture.engine Fixture.dp_optimizer
              Fixture.one Fixture.one 2 "mean"%string two two 5 "sum"%string
              Fixture.wrapped 9%nat h1 eq_refl)
    as (inner & ps & H1 & H2).
  exists inner, ps. split; [exact H1|]. split; [|exact H2].
  vm_compute in H1. injection H1 as E _. symmetry. exact E.
Defined.

(** X1 on the fixture with the empty loader: the calibrator is not
    reached. *)
Lemma make_private_with_epsilon_raises_witness :
  make_private_with_epsilon Fixture.engine Fixture.model Fixture.sgd
    Fixture.loader Fixture.one (Qmake 1 100) 3 Fixture.one true "mean"%string
    None None None Fixture.empty_loader
  = (Raise ZeroDivisionError, Fixture.empty_loader).
Proof.
  exact (make_private_with_epsilon_raises (F := Q) Fixture.engine Fixture.model
           Fixture.sgd Fixture.loader Fixture.one (Qmake 1 100) 3 Fixture.one
           true "mean"%string None None None Fixture.empty_loader 0 eq_refl).
Defined.

(** X15 on the fixture: 4 batches in the loader passed in and in its
    wrapper. *)
Lemma make_private_with_epsilon_sample_rates_witness :
  let h := Fixture.unwrapped PrivacyEngine_cls in
  let h' := snd (make_private_with_epsilon Fixture.engine Fixture.model
                   Fixture.sgd Fixture.loader Fixture.one (Qmake 1 100) 3
                   Fixture.one true "mean"%string None None None h) in
  exists d0 d o,
    get_data_loader Fixture.loader h = (Ok d0, h) /\
    get_data_loader Fixture.dp_loader h' = (Ok d, h') /\
    h' !! Fixture.dp_optimizer = Some (a_DPOptimizer o) /\
    get_noise_multiplier
      {| target_epsilon := Fixture.one; target_delta := Qmake 1 100;
         sample_rate := truediv 1 (batches d0); epochs := 3;
         alphas := None; sigma_min := None; sigma_max := None |}
      = Ok (noise_multiplier o) /\
    step_hooks o
      = [accountant_hook_closure Fixture.engine (truediv 1 (batches d))] /\
    ((Fixture.dp_loader = Fixture.loader /\ d = d0) \/
     (Fixture.dp_loader <> Fixture.loader /\ d = from_data_loader d0)).
Proof.
  exact (make_private_with_epsilon_sample_rates (F := Q) Fixture.engine
           Fixture.model Fixture.sgd Fixture.loader Fixture.one (Qmake 1 100) 3
           Fixture.one true "mean"%string None None None
           (Fixture.unwrapped PrivacyEngine_cls)
           Fixture.dp_model Fixture.dp_optimizer Fixture.dp_loader _ eq_refl).
Defined.

(** X3 on the wrapped fixture after a backward pass. *)
Lemma virtual_step_hook_accumulates_witness :
  let h := Fixture.after_backward in
  virtual_step_hook Fixture.dp_model Fixture.dp_optimizer h
  = (virtual_step Fixture.dp_optimizer ;; zero_grad Fixture.dp_model) h.
Proof.
  intros h.
  refine (virtual_step_hook_accumulates (F := Q) Fixture.dp_model
            Fixture.dp_optimizer [Fixture.weight; Fixture.bias]
            [ {| requires_grad := true; grad := Some {| has_noise := false |};
                 grad_sample := Some {| has_noise := false |} |};
              Fixture.fresh_parameter ] h eq_refl _ _ _).
  - repeat constructor.
  - intros P [<-|[<-|[]]] _; reflexivity.
  - eexists. split; [left; reflexivity|]. split; reflexivity.
Defined.

(** X4 on the wrapped fixture with a noised gradient left on the first
    parameter. *)
Lemma virtual_step_hook_raises_witness :
  let h := Fixture.stale_first_parameter in
  virtual_step_hook Fixture.dp_model Fixture.dp_optimizer h
  = (Raise UnclearedGradientError, h).
Proof.
  intros h.
  refine (virtual_step_hook_raises (F := Q) Fixture.dp_model
            Fixture.dp_optimizer [Fixture.weight; Fixture.bias]
            _ [] [Fixture.fresh_parameter]
            {| requires_grad := true; grad := Some {| has_noise := true |};
               grad_sample := None |} h eq_refl _ eq_refl _ eq_refl eq_refl).
  - repeat constructor.
  - intros P' [].
Defined.

(** X16 on the wrapped fixture with the first parameter frozen: its
    noised gradient and its per-example gradients are not looked at. *)
Lemma virtual_step_hook_does_nothing_witness :
  let h := Fixture.frozen_first_parameter in
  virtual_step_hook Fixture.dp_model Fixture.dp_optimizer h = (Ok tt, h).
Proof.
  intros h.
  refine (virtual_step_hook_does_nothing (F := Q) Fixture.dp_model
            Fixture.dp_optimizer [Fixture.weight; Fixture.bias]
            [ {| requires_grad := false; grad := Some {| has_noise := true |};
                 grad_sample := Some {| has_noise := false |} |};
              Fixture.fresh_parameter ] h eq_refl _ _).
  - repeat constructor.
  - intros P [<-|[<-|[]]]; [discriminate|]. intros _. split; reflexivity.
Defined.

(** X17 on the wrapped fixture after one virtual step: the hook records
    the step, and the optimizer is as it was. *)
Lemma accountant_hook_touches_only_the_ledger_witness :
  let h := snd (virtual_step Fixture.dp_optimizer Fixture.wrapped) in
  let h' := snd (accountant_hook Fixture.engine (Qmake 1 4)
                   Fixture.dp_optimizer h) in
  length h' = length h /\
  (forall l, l <> Fixture.engine -> h' !! l = h !! l) /\
  (forall e, h !! Fixture.engine = Some (a_PrivacyEngine e) ->
     exists a, h' !! Fixture.engine
               = Some (a_PrivacyEngine {| cls := cls e; accountant := a;
                                          secure_mode := secure_mode e |})) /\
  (forall x, Ok tt = Raise x -> h' = h).
Proof.
  exact (accountant_hook_touches_only_the_ledger (F := Q) Fixture.engine
           (Qmake 1 4) Fixture.dp_optimizer
           (snd (virtual_step Fixture.dp_optimizer Fixture.wrapped)) (Ok tt)
           (snd (accountant_hook Fixture.engine (Qmake 1 4) Fixture.dp_optimizer
                   (snd (virtual_step Fixture.dp_optimizer Fixture.wrapped))))
           eq_refl).
Defined.
